(** * Campus status board and study-partner recommendations

    A shallow embedding of the availability and recommendation core:
    - [app/algorithm.py]: [time_to_minutes], [is_time_between],
      [RecommendationEngine.get_user_classes], [get_shared_classes] and
      [get_user_availability], [get_current_class_for_user],
      [get_next_class_for_user], [get_recent_class_for_user];
    - [services.py]: [ScheduleService], [StatusService],
      [RecommendationService];
    - [app.py]: the template filter [format_time];
    - [models.py]: the dataclasses and the two enumerations.

    Python [str] values are Rocq strings holding the UTF-8 bytes of their code
    points (the clock strings the program produces and compares are ASCII).  Python [dict]s whose iteration
    order is observed are insertion-ordered association lists; the others are
    [gmap]s.  A call that may raise returns a [result]. *)

From Stdlib Require Import ZArith String Ascii List Lia Permutation Sorted DecimalString.
From stdpp Require Import gmap strings list.

Local Open Scope string_scope.

(* ================================================================== *)
(** ** Exceptions *)

Inductive exn :=
| ValueError (msg : string)
| AttributeError (msg : string)
| TypeError (msg : string).

Inductive result (A : Type) :=
| Ok (a : A)
| Raise (e : exn).
Arguments Ok {A} a.
Arguments Raise {A} e.

#[global] Instance result_ret : MRet result := fun _ a => Ok a.
#[global] Instance result_bind : MBind result := fun _ _ k m =>
  match m with
  | Ok a => k a
  | Raise e => Raise e
  end.

(** [try: m except (ValueError, AttributeError): h] *)
Definition try_except_ValueError_AttributeError {A}
    (m : result A) (h : result A) : result A :=
  match m with
  | Ok a => Ok a
  | Raise (ValueError _) => h
  | Raise (AttributeError _) => h
  | Raise e => Raise e
  end.

(* ================================================================== *)
(** ** Built-in string operations *)

(** [sep in s] for a one-character [sep]. *)
Fixpoint str_contains (sep : ascii) (s : string) : bool :=
  match s with
  | EmptyString => false
  | String c s' => if Ascii.eqb c sep then true else str_contains sep s'
  end.

(** [s.split(sep)] for a one-character [sep]: never empty, one more field
    than there are separators. *)
Fixpoint str_split (sep : ascii) (s : string) : list string :=
  match s with
  | EmptyString => [EmptyString]
  | String c s' =>
      if Ascii.eqb c sep then EmptyString :: str_split sep s'
      else match str_split sep s' with
           | h :: t => String c h :: t
           | [] => [String c EmptyString]
           end
  end.

(** Whitespace skipped by [int()] around an ASCII literal:
    tab, line feed, vertical tab, form feed, carriage return, space. *)
Definition is_space (c : ascii) : bool :=
  let n := nat_of_ascii c in
  ((9 <=? n)%nat && (n <=? 13)%nat) || (n =? 32)%nat.

Definition digit_value (c : ascii) : option Z :=
  let n := nat_of_ascii c in
  if ((48 <=? n)%nat && (n <=? 57)%nat) then Some (Z.of_nat (n - 48)) else None.

Fixpoint skip_spaces (s : string) : string :=
  match s with
  | String c s' => if is_space c then skip_spaces s' else s
  | EmptyString => EmptyString
  end.

(** The digit scan of [int()]: decimal digits, single underscores allowed
    between digits; stops at the first other character.  [prev_us] records
    that the previous character was an underscore. *)
Fixpoint scan_digits (prev_us : bool) (acc : Z) (s : string) : option (Z * string) :=
  match s with
  | String c s' =>
      match digit_value c with
      | Some d => scan_digits false (10 * acc + d) s'
      | None =>
          if Ascii.eqb c "_" then
            if prev_us then None else scan_digits true acc s'
          else if prev_us then None else Some (acc, s)
      end
  | EmptyString => if prev_us then None else Some (acc, EmptyString)
  end.

Definition invalid_literal : exn :=
  ValueError "invalid literal for int() with base 10".

Definition exceeds_the_limit : exn :=
  ValueError "Exceeds the limit (4300 digits) for integer string conversion".

(** [sys.int_info.default_max_str_digits] *)
Definition max_str_digits : nat := 4300.

(** The number of digits the scan passes over (underscores do not count). *)
Fixpoint count_digits (s : string) : nat :=
  match s with
  | String c s' =>
      match digit_value c with
      | Some _ => S (count_digits s')
      | None => if Ascii.eqb c "_" then count_digits s' else 0%nat
      end
  | EmptyString => 0%nat
  end.

(** The conversion of an ASCII buffer, base 10: optional surrounding
    whitespace, an optional sign, then digits (with single underscores
    between them), at most [max_str_digits] of them. *)
Definition long_from_string (s : string) : result Z :=
  let s1 := skip_spaces s in
  let '(neg, s2) :=
    match s1 with
    | String c r =>
        if Ascii.eqb c "-" then (true, r)
        else if Ascii.eqb c "+" then (false, r)
        else (false, s1)
    | EmptyString => (false, s1)
    end in
  match s2 with
  | String c r =>
      match digit_value c with
      | Some d =>
          match scan_digits false d r with
          | Some (v, rest) =>
              if (max_str_digits <? S (count_digits r))%nat then Raise exceeds_the_limit
              else
                match skip_spaces rest with
                | EmptyString => Ok (if neg then - v else v)%Z
                | _ => Raise invalid_literal
                end
          | None => Raise invalid_literal
          end
      | None => Raise invalid_literal
      end
  | EmptyString => Raise invalid_literal
  end.

(** A [str] is held as the UTF-8 bytes of its code points.  [utf8_decode]
    gives the code points back; a byte that does not start a well-formed
    sequence gives [no_code_point]. *)
Definition no_code_point : N := 0x110000.

Definition is_continuation (b : N) : bool := ((0x80 <=? b) && (b <=? 0xBF))%N.

Fixpoint utf8_decode (s : string) : list N :=
  match s with
  | EmptyString => []
  | String c0 r0 =>
      let b0 := N_of_ascii c0 in
      if (b0 <? 0x80)%N then b0 :: utf8_decode r0
      else
        match r0 with
        | EmptyString => [no_code_point]
        | String c1 r1 =>
            let b1 := N_of_ascii c1 in
            if ((0xC0 <=? b0) && (b0 <? 0xE0))%N then
              let cp := ((b0 - 0xC0) * 64 + (b1 - 0x80))%N in
              if is_continuation b1 && (0x80 <=? cp)%N
              then cp :: utf8_decode r1
              else no_code_point :: utf8_decode r0
            else
              match r1 with
              | EmptyString => no_code_point :: utf8_decode r0
              | String c2 r2 =>
                  let b2 := N_of_ascii c2 in
                  if ((0xE0 <=? b0) && (b0 <? 0xF0))%N then
                    let cp := (((b0 - 0xE0) * 64 + (b1 - 0x80)) * 64 + (b2 - 0x80))%N in
                    if is_continuation b1 && is_continuation b2 && (0x800 <=? cp)%N
                    then cp :: utf8_decode r2
                    else no_code_point :: utf8_decode r0
                  else
                    match r2 with
                    | EmptyString => no_code_point :: utf8_decode r0
                    | String c3 r3 =>
                        let b3 := N_of_ascii c3 in
                        let cp := ((((b0 - 0xF0) * 64 + (b1 - 0x80)) * 64
                                    + (b2 - 0x80)) * 64 + (b3 - 0x80))%N in
                        if ((0xF0 <=? b0) && (b0 <? 0xF8))%N
                           && is_continuation b1 && is_continuation b2
                           && is_continuation b3
                           && ((0x10000 <=? cp) && (cp <? 0x110000))%N
                        then cp :: utf8_decode r3
                        else no_code_point :: utf8_decode r0
                    end
              end
        end
  end.

(** The code points above ASCII that [str.isspace] holds of. *)
Definition unicode_space (cp : N) : bool :=
  existsb (N.eqb cp)
    [0x85; 0xA0; 0x1680; 0x2000; 0x2001; 0x2002; 0x2003; 0x2004; 0x2005; 0x2006;
     0x2007; 0x2008; 0x2009; 0x200A; 0x2028; 0x2029; 0x202F; 0x205F; 0x3000]%N.

(** The digit zero of every run of decimal digits above ASCII (Unicode 14,
    general category Nd); the nine code points after it are the digits one to
    nine. *)
Definition unicode_decimal_zeros : list N :=
  [
    0x660; 0x6F0; 0x7C0; 0x966; 0x9E6; 0xA66; 0xAE6; 0xB66; 0xBE6; 0xC66;
    0xCE6; 0xD66; 0xDE6; 0xE50; 0xED0; 0xF20; 0x1040; 0x1090; 0x17E0;
    0x1810; 0x1946; 0x19D0; 0x1A80; 0x1A90; 0x1B50; 0x1BB0; 0x1C40; 0x1C50;
    0xA620; 0xA8D0; 0xA900; 0xA9D0; 0xA9F0; 0xAA50; 0xABF0; 0xFF10;
    0x104A0; 0x10D30; 0x11066; 0x110F0; 0x11136; 0x111D0; 0x112F0; 0x11450;
    0x114D0; 0x11650; 0x116C0; 0x11730; 0x118E0; 0x11950; 0x11C50; 0x11D50;
    0x11DA0; 0x16A60; 0x16AC0; 0x16B50; 0x1D7CE; 0x1D7D8; 0x1D7E2; 0x1D7EC;
    0x1D7F6; 0x1E140; 0x1E2F0; 0x1E950; 0x1FBF0
  ]%N.

Definition unicode_decimal (cp : N) : option N :=
  match find (fun zero => (zero <=? cp) && (cp <? zero + 10))%N unicode_decimal_zeros with
  | Some zero => Some (cp - zero)%N
  | None => None
  end.

(** [int()] first rewrites its argument to ASCII: code points below 127 as
    they are, other whitespace as a space, other decimal digits as the ASCII
    digit of their value, and anything else as a question mark, on which the
    conversion fails. *)
Definition to_ascii_char (cp : N) : ascii :=
  if (cp <? 127)%N then ascii_of_N cp
  else if unicode_space cp then " "%char
  else match unicode_decimal cp with
       | Some d => ascii_of_N (48 + d)
       | None => "?"%char
       end.

Definition transform_decimal_and_space (s : string) : string :=
  string_of_list_ascii (map to_ascii_char (utf8_decode s)).

(** [int(s)] on a string, base 10. *)
Definition py_int (s : string) : result Z :=
  long_from_string (transform_decimal_and_space s).

(** [str(n)] for a natural number: its decimal numeral. *)
Definition nat_to_str (n : nat) : string :=
  NilEmpty.string_of_uint (Nat.to_uint n).

(** [str(z)] for an [int]. *)
Definition int_to_str (z : Z) : string :=
  if (z <? 0)%Z then "-" ++ nat_to_str (Z.to_nat (- z)) else nat_to_str (Z.to_nat z).

(** [format(z, "02d")]: sign-aware zero padding to width two. *)
Definition int_to_str_02d (z : Z) : string :=
  if (z <? 0)%Z then int_to_str z
  else if (z <? 10)%Z then "0" ++ int_to_str z
  else int_to_str z.

(** Truthiness of a [str]. *)
Definition str_truthy (s : string) : bool :=
  match s with EmptyString => false | _ => true end.

(** Truthiness of an [Optional[str]]. *)
Definition opt_str_truthy (o : option string) : bool :=
  match o with Some s => str_truthy s | None => false end.

(** [min(l, key=key)] on strings keys: the first element whose key is least. *)
Fixpoint min_by_key {A} (key : A → string) (x : A) (l : list A) : A :=
  match l with
  | [] => x
  | y :: l' => if String.ltb (key y) (key x) then min_by_key key y l' else min_by_key key x l'
  end.

(** [l.sort(key=key, reverse=True)]: the sort is stable, so an element goes
    in front of the first one that does not have a strictly larger key. *)
Fixpoint insert_desc {A} (key : A → Z) (x : A) (l : list A) : list A :=
  match l with
  | [] => [x]
  | y :: l' => if (key x <? key y)%Z then y :: insert_desc key x l' else x :: y :: l'
  end.

Fixpoint sort_reverse {A} (key : A → Z) (l : list A) : list A :=
  match l with
  | [] => []
  | x :: l' => insert_desc key x (sort_reverse key l')
  end.



(** ** The wall clock *)

(** A [datetime] as far as the program looks at it: [strftime('%A')],
    [strftime('%H:%M')] and [isoformat()]. *)
Inductive weekday := Monday | Tuesday | Wednesday | Thursday | Friday | Saturday | Sunday.

Record datetime := {
  dt_weekday : weekday;
  dt_hour : nat;
  dt_minute : nat;
  dt_isoformat : string;
  dt_hour_ok : (dt_hour <? 24)%nat = true;
  dt_minute_ok : (dt_minute <? 60)%nat = true
}.

(** [now.strftime('%A').lower()] *)
Definition strftime_A_lower (now : datetime) : string :=
  match dt_weekday now with
  | Monday => "monday" | Tuesday => "tuesday" | Wednesday => "wednesday"
  | Thursday => "thursday" | Friday => "friday" | Saturday => "saturday"
  | Sunday => "sunday"
  end.

Definition digit_char (n : nat) : ascii := ascii_of_nat (48 + n).

Definition two_digits (n : nat) : string :=
  String (digit_char (n / 10)) (String (digit_char (n mod 10)) EmptyString).

(** [now.strftime('%H:%M')] *)
Definition strftime_HM (now : datetime) : string :=
  two_digits (dt_hour now) ++ ":" ++ two_digits (dt_minute now).

(* ================================================================== *)
(** ** models.py *)

Module models.

Inductive StatusType := STUDYING | FREE | HELP | BUSY | TIRED | SOCIAL.

Definition StatusType_value (s : StatusType) : string :=
  match s with
  | STUDYING => "studying" | FREE => "free" | HELP => "help"
  | BUSY => "busy" | TIRED => "tired" | SOCIAL => "social"
  end.

#[global] Instance StatusType_eq_dec : EqDecision StatusType.
Proof. solve_decision. Defined.

Inductive DayType := MONDAY | TUESDAY | WEDNESDAY | THURSDAY | FRIDAY | SATURDAY | SUNDAY.

Definition DayType_value (d : DayType) : string :=
  match d with
  | MONDAY => "monday" | TUESDAY => "tuesday" | WEDNESDAY => "wednesday"
  | THURSDAY => "thursday" | FRIDAY => "friday" | SATURDAY => "saturday"
  | SUNDAY => "sunday"
  end.

#[global] Instance DayType_eq_dec : EqDecision DayType.
Proof. solve_decision. Defined.

(** [DayType(s)]: lookup of an enumeration member by value. *)
Definition DayType_of_value (s : string) : result DayType :=
  match find (fun d => String.eqb (DayType_value d) s)
             [MONDAY; TUESDAY; WEDNESDAY; THURSDAY; FRIDAY; SATURDAY; SUNDAY] with
  | Some d => Ok d
  | None => Raise (ValueError "is not a valid DayType")
  end.

Module User.
Record t := mk {
    id : string;
    username : string;
    major : string;
    avatar : option string
}.
End User.

Module Schedule.
Record t := mk {
    id : string;
    user_id : string;
    course_code : string;
    course_name : string;
    day : DayType;
    start_time : string;
    end_time : string;
    location : option string
}.
End Schedule.

Module UserStatus.
Record t := mk {
    id : string;
    user_id : string;
    manual_status : StatusType;
    last_updated : datetime
}.
End UserStatus.

Module StudyPartner.
Record t := mk {
    id : string;
    username : string;
    major : string;
    avatar : option string;
    score : Z;
    shared_classes : list string;
    current_class : option string;
    next_class : option string;
    reason : string
}.
End StudyPartner.

Module StatusBoardUser.
Record t := mk {
    id : string;
    username : string;
    major : string;
    avatar : option string;
    manual_status : string;
    current_class : option string;
    next_class : option string
}.
End StatusBoardUser.

Module CurrentStatusResponse.
Record t := mk {
    now : string;
    in_class : list StatusBoardUser.t;
    free : list StatusBoardUser.t
}.
End CurrentStatusResponse.

End models.

(* ================================================================== *)
(** ** app/algorithm.py *)

Module algorithm.

Definition time_to_minutes (time_str : string) : result Z :=
  try_except_ValueError_AttributeError
    (if negb (str_contains ":" time_str) then Ok 0%Z
     else
       let parts := str_split ":" time_str in
       if negb (length parts =? 2)%nat then Ok 0%Z
       else
         hours ← py_int (nth 0 parts EmptyString);
         minutes ← py_int (nth 1 parts EmptyString);
         if ((0 <=? hours) && (hours <=? 23) && (0 <=? minutes) && (minutes <=? 59))%Z
         then Ok (hours * 60 + minutes)%Z
         else Ok 0%Z)
    (Ok 0%Z).

Definition is_time_between (current start end_ : string) : result bool :=
  current_min ← time_to_minutes current;
  start_min ← time_to_minutes start;
  end_min ← time_to_minutes end_;
  if (end_min <? start_min)%Z then
    Ok ((start_min <=? current_min)%Z || (current_min <=? end_min)%Z)
  else
    Ok ((start_min <=? current_min)%Z && (current_min <=? end_min)%Z).

(** The value [time_to_minutes] returns (it never raises, see
    [time_to_minutes_total]). *)
Definition minutes_of (time_str : string) : Z :=
  match time_to_minutes time_str with
  | Ok n => n
  | Raise _ => 0%Z
  end.

(** The JSON documents the engine loads.  A key that may be missing is an
    [option]; the values the program reads are strings. *)
Record ClassInfo := {
  courseCode : option string;
  courseName : option string;
  day : option string;
  startTime : option string;
  endTime : option string;
  location : option string
}.

Record UserSchedule := {
  userId : option string;
  schedule : option (list ClassInfo)
}.

Record StatusRecord := {
  manualStatus : option string;
  lastUpdated : option string
}.

Record UserRecord := {
  id : option string;
  username : option string;
  major : option string;
  created_at : option string
}.

Record RecommendationEngine := {
  users : gmap string UserRecord;
  schedules : gmap string UserSchedule;
  statuses : gmap string StatusRecord
}.

Record Availability := {
  status : string;
  social_preference : string;
  study_preference : string
}.

(** [x in l] for a list of strings. *)
Definition str_in (x : string) (l : list string) : bool :=
  existsb (String.eqb x) l.

Definition get_user_availability (self : RecommendationEngine) (user_id : string)
    : Availability :=
  let availability :=
    {| status := "unknown"; social_preference := "neutral"; study_preference := "neutral" |} in
  match statuses self !! user_id with
  | None => availability
  | Some record =>
      let manual_status := default "free" (manualStatus record) in
      let availability :=
        {| status := manual_status;
           social_preference := social_preference availability;
           study_preference := study_preference availability |} in
      if str_in manual_status ["social"; "want to hang out"] then
        {| status := status availability;
           social_preference := "high"; study_preference := "low" |}
      else if str_in manual_status ["tired"; "busy"] then
        {| status := status availability;
           social_preference := "low"; study_preference := "low" |}
      else if str_in manual_status ["studying"; "help"] then
        {| status := status availability;
           social_preference := "low"; study_preference := "high" |}
      else if String.eqb manual_status "free" then
        {| status := status availability;
           social_preference := "neutral"; study_preference := "neutral" |}
      else availability
  end.

(** [engine.schedules.get(user_id, {}).get('schedule', [])] *)
Definition user_schedule_of (engine : RecommendationEngine) (user_id : string)
    : list ClassInfo :=
  match schedules engine !! user_id with
  | Some us => default [] (schedule us)
  | None => []
  end.

(** [class_info.get('day') == current_day] *)
Definition day_is (class_info : ClassInfo) (current_day : string) : bool :=
  match day class_info with
  | Some d => String.eqb d current_day
  | None => false
  end.

(** The loop of [get_current_class_for_user]. *)
Fixpoint current_class_loop (current_day current_time : string)
    (user_schedule : list ClassInfo) : result string :=
  match user_schedule with
  | [] => Ok "Free"
  | class_info :: rest =>
      if day_is class_info current_day then
        let start_time := default "" (startTime class_info) in
        let end_time := default "" (endTime class_info) in
        if str_truthy start_time && str_truthy end_time then
          b ← is_time_between current_time start_time end_time;
          if b : bool then
            let course_code := default "Unknown" (courseCode class_info) in
            Ok ("In " ++ course_code)
          else current_class_loop current_day current_time rest
        else current_class_loop current_day current_time rest
      else current_class_loop current_day current_time rest
  end.

Definition get_current_class_for_user (engine : RecommendationEngine)
    (user_id : string) (now : datetime) : result string :=
  match schedules engine !! user_id with
  | None => Ok "Free"
  | Some _ =>
      let current_day := strftime_A_lower now in
      let current_time := strftime_HM now in
      let user_schedule := user_schedule_of engine user_id in
      current_class_loop current_day current_time user_schedule
  end.




(** [RecommendationEngine.get_user_classes] *)
Definition get_user_classes (self : RecommendationEngine) (user_id : string)
    : list string :=
  match schedules self !! user_id with
  | None => []
  | Some _ =>
      let schedule := user_schedule_of self user_id in
      omap (fun class_info => courseCode class_info) schedule
  end.

(** [list(s)] for a set [s]: every member once.  The order is the iteration
    order of the set, which the language leaves open: it follows the hashes
    of the strings, which change from one run to the next, and the way the
    set was built, so two equal sets need not be listed alike.  The call is
    therefore a relation between the set and the lists it may give. *)
Definition list_of_set (s : gset string) (l : list string) : Prop :=
  l ≡ₚ elements s.

(** [RecommendationEngine.get_shared_classes]: [shared] is a list the call
    may return. *)
Definition get_shared_classes (self : RecommendationEngine) (user1_id user2_id : string)
    (shared : list string) : Prop :=
  let user1_classes : gset string := list_to_set (get_user_classes self user1_id) in
  let user2_classes : gset string := list_to_set (get_user_classes self user2_id) in
  list_of_set (user1_classes ∩ user2_classes) shared.




End algorithm.

(* ================================================================== *)
(** ** services.py *)

Module services.
Import models.

(** An insertion-ordered [dict] with string keys: [d.get(k)] and [d[k] = v]
    (an existing key keeps its place). *)
Definition dict_get {V} (k : string) (d : list (string * V)) : option V :=
  snd <$> find (fun kv => String.eqb (fst kv) k) d.

Fixpoint dict_set {V} (k : string) (v : V) (d : list (string * V)) : list (string * V) :=
  match d with
  | [] => [(k, v)]
  | (k', v') :: rest =>
      if String.eqb k' k then (k', v) :: rest else (k', v') :: dict_set k v rest
  end.

Record ScheduleService := {
  users : list (string * User.t);
  schedules : gmap string Schedule.t;
  user_schedules : gmap string (list string)
}.

Definition ScheduleService_init : ScheduleService :=
  {| users := []; schedules := ∅; user_schedules := ∅ |}.

(** [uuid] is the value of [str(uuid.uuid4())]. *)
Definition create_or_get_user (self : ScheduleService) (username major : string)
    (uuid : string) : User.t * ScheduleService :=
  match find (fun user => String.eqb (User.username user) username
                          && String.eqb (User.major user) major)
             (map snd (users self)) with
  | Some user => (user, self)
  | None =>
      let user := User.mk uuid username major None in
      (user, {| users := dict_set (User.id user) user (users self);
                schedules := schedules self;
                user_schedules := user_schedules self |})
  end.

Definition get_user (self : ScheduleService) (user_id : string) : option User.t :=
  dict_get user_id (users self).

(** [user_schedules] is a [defaultdict(list)]: indexing a missing key yields
    (and stores) the empty list. *)
Definition add_schedule (self : ScheduleService) (schedule : Schedule.t) : ScheduleService :=
  {| users := users self;
     schedules := <[Schedule.id schedule := schedule]> (schedules self);
     user_schedules :=
       <[Schedule.user_id schedule :=
           (default [] (user_schedules self !! Schedule.user_id schedule)
            ++ [Schedule.id schedule])%list]> (user_schedules self) |}.

(** The outcome of the call together with the service as the call leaves it. *)
Definition remove_schedule (self : ScheduleService) (schedule_id user_id : string)
    : result unit * ScheduleService :=
  match schedules self !! schedule_id with
  | Some schedule =>
      if String.eqb (Schedule.user_id schedule) user_id then
        (Ok tt,
         {| users := users self;
            schedules := delete schedule_id (schedules self);
            user_schedules :=
              <[user_id :=
                  List.filter (fun sid => negb (String.eqb sid schedule_id))
                              (default [] (user_schedules self !! user_id))]>
                (user_schedules self) |})
      else (Raise (ValueError "Not authorized to remove this schedule"), self)
  | None => (Raise (ValueError "Schedule not found"), self)
  end.

Definition get_user_schedules (self : ScheduleService) (user_id : string)
    : list Schedule.t :=
  let schedule_ids := default [] (user_schedules self !! user_id) in
  omap (fun sid => schedules self !! sid) schedule_ids.

Record StatusService := {
  user_statuses : gmap string UserStatus.t
}.

Definition update_user_status (self : StatusService) (user_id : string)
    (status : StatusType) (uuid : string) (now : datetime) : StatusService :=
  let status_obj := UserStatus.mk uuid user_id status now in
  {| user_statuses := <[user_id := status_obj]> (user_statuses self) |}.

Definition get_user_status (self : StatusService) (user_id : string) : StatusType :=
  match user_statuses self !! user_id with
  | Some status => UserStatus.manual_status status
  | None => FREE
  end.

(** [hour, minute = map(int, time_str.split(':'))]: the fields are converted
    one by one while unpacking, a third one before the count is rejected. *)
Definition _format_time (time_str : string) : result string :=
  '(hour, minute) ←
    match str_split ":" time_str with
    | [] => Raise (ValueError "not enough values to unpack")
    | [a] => _ ← py_int a; Raise (ValueError "not enough values to unpack")
    | [a; b] => hour ← py_int a; minute ← py_int b; Ok (hour, minute)
    | a :: b :: c :: _ =>
        _ ← py_int a; _ ← py_int b; _ ← py_int c;
        Raise (ValueError "too many values to unpack")
    end;
  let ampm := if (hour <? 12)%Z then "AM" else "PM" in
  let display_hour := if (hour <=? 12)%Z then hour else (hour - 12)%Z in
  let display_hour := if (display_hour =? 0)%Z then 12%Z else display_hour in
  Ok (int_to_str display_hour ++ ":" ++ int_to_str_02d minute ++ " " ++ ampm).

(** The scan for the class in progress (services.py lines 97-101 and
    198-202): the first entry of the day with
    [start_time <= current_time <= end_time], compared as strings. *)
Fixpoint current_class_scan (schedules : list Schedule.t) (current_day : DayType)
    (current_time : string) : option string :=
  match schedules with
  | [] => None
  | schedule :: rest =>
      if bool_decide (Schedule.day schedule = current_day) then
        if String.leb (Schedule.start_time schedule) current_time
           && String.leb current_time (Schedule.end_time schedule)
        then Some (Schedule.course_code schedule)
        else current_class_scan rest current_day current_time
      else current_class_scan rest current_day current_time
  end.

(** The next class of the day (lines 104-108 and 205-209). *)
Definition next_class_today (schedules : list Schedule.t) (current_day : DayType)
    (current_time : string) : result (option string) :=
  let today_schedules :=
    List.filter (fun s => bool_decide (Schedule.day s = current_day)) schedules in
  let future_schedules :=
    List.filter (fun s => String.ltb current_time (Schedule.start_time s)) today_schedules in
  match future_schedules with
  | [] => Ok None
  | s0 :: others =>
      let next_schedule := min_by_key Schedule.start_time s0 others in
      t ← _format_time (Schedule.start_time next_schedule);
      Ok (Some (Schedule.course_code next_schedule ++ " @ " ++ t))
  end.

(** One turn of the loop of [get_current_status], up to the record built. *)
Definition status_user_of (self : StatusService) (schedule_service : ScheduleService)
    (current_day : DayType) (current_time : string)
    (user_id : string) (user : User.t) : result StatusBoardUser.t :=
  let user_status := get_user_status self user_id in
  let schedules := get_user_schedules schedule_service user_id in
  let current_class := current_class_scan schedules current_day current_time in
  next_class ← next_class_today schedules current_day current_time;
  Ok (StatusBoardUser.mk (User.id user) (User.username user) (User.major user)
        (User.avatar user) (StatusType_value user_status) current_class next_class).

Fixpoint status_loop (self : StatusService) (schedule_service : ScheduleService)
    (current_day : DayType) (current_time : string)
    (items : list (string * User.t))
    (in_class free : list StatusBoardUser.t)
    : result (list StatusBoardUser.t * list StatusBoardUser.t) :=
  match items with
  | [] => Ok (in_class, free)
  | (user_id, user) :: rest =>
      status_user ← status_user_of self schedule_service current_day current_time user_id user;
      if opt_str_truthy (StatusBoardUser.current_class status_user) then
        status_loop self schedule_service current_day current_time rest
          (in_class ++ [status_user])%list free
      else
        status_loop self schedule_service current_day current_time rest
          in_class (free ++ [status_user])%list
  end.

(** [now] is the value of [datetime.now()] read on entry. *)
Definition get_current_status (self : StatusService) (schedule_service : ScheduleService)
    (now : datetime) : result CurrentStatusResponse.t :=
  current_day ← DayType_of_value (strftime_A_lower now);
  let current_time := strftime_HM now in
  '(in_class, free) ←
    status_loop self schedule_service current_day current_time
      (users schedule_service) [] [];
  Ok (CurrentStatusResponse.mk (dt_isoformat now) in_class free).

(** Lines 170-179. *)
Definition score_of (user other_user : User.t) (other_status : StatusType)
    (shared_classes : list string) : Z :=
  let score := (Z.of_nat (length shared_classes) * 20)%Z in
  let score :=
    if String.eqb (User.major user) (User.major other_user) then (score + 15)%Z else score in
  let score :=
    if bool_decide (other_status ∈ [STUDYING; HELP; FREE]) then (score + 10)%Z else score in
  score.

(** Lines 182-188. *)
Definition reason_of (user other_user : User.t) (other_status : StatusType)
    (shared_classes : list string) : string :=
  let reason :=
    "Shares " ++ nat_to_str (length shared_classes) ++ " class"
    ++ (if (1 <? length shared_classes)%nat then "es" else "") ++ " with you" in
  let reason :=
    if String.eqb (User.major user) (User.major other_user)
    then reason ++ "; Same major (" ++ User.major user ++ ")" else reason in
  let reason :=
    if bool_decide (other_status = HELP) then reason ++ "; Available to help"
    else if bool_decide (other_status = STUDYING) then reason ++ "; Currently studying"
    else reason in
  reason.

(** The course codes of a list of entries, as a [set]. *)
Definition course_set (l : list Schedule.t) : gset string :=
  list_to_set (map Schedule.course_code l).

(** The loop of [get_recommendations].  The clock is read once for every
    candidate that is kept: [clock n] is the value of the [n]-th call of
    [datetime.now()], and [tick] counts the calls made so far.  The list made
    from the intersection of two sets comes in no specified order; [elements]
    fixes one. *)
Fixpoint recommend_loop (schedule_service : ScheduleService)
    (status_service : StatusService) (clock : nat → datetime)
    (user_id : string) (user : User.t) (user_courses : gset string)
    (items : list (string * User.t)) (tick : nat)
    (recommendations : list StudyPartner.t) : result (list StudyPartner.t) :=
  match items with
  | [] => Ok recommendations
  | (other_user_id, other_user) :: rest =>
      if String.eqb other_user_id user_id then
        recommend_loop schedule_service status_service clock user_id user user_courses
          rest tick recommendations
      else
        let other_schedules := get_user_schedules schedule_service other_user_id in
        let other_courses := course_set other_schedules in
        let shared_classes := elements (user_courses ∩ other_courses) in
        match shared_classes with
        | [] =>
            recommend_loop schedule_service status_service clock user_id user user_courses
              rest tick recommendations
        | _ =>
            let other_status := get_user_status status_service other_user_id in
            let score := score_of user other_user other_status shared_classes in
            let reason := reason_of user other_user other_status shared_classes in
            let now := clock tick in
            current_day ← DayType_of_value (strftime_A_lower now);
            let current_time := strftime_HM now in
            let current_class := current_class_scan other_schedules current_day current_time in
            next_class ←
              (if negb (opt_str_truthy current_class)
               then next_class_today other_schedules current_day current_time
               else Ok None);
            let partner :=
              StudyPartner.mk (User.id other_user) (User.username other_user)
                (User.major other_user) (User.avatar other_user) score shared_classes
                current_class next_class reason in
            recommend_loop schedule_service status_service clock user_id user user_courses
              rest (S tick) (recommendations ++ [partner])%list
        end
  end.

Definition get_recommendations (schedule_service : ScheduleService)
    (status_service : StatusService) (clock : nat → datetime)
    (user_id : string) : result (list StudyPartner.t) :=
  match get_user schedule_service user_id with
  | None => Ok []
  | Some user =>
      let user_schedules := get_user_schedules schedule_service user_id in
      let user_courses := course_set user_schedules in
      recommendations ←
        recommend_loop schedule_service status_service clock user_id user user_courses
          (users schedule_service) 0 [];
      Ok (take 5 (sort_reverse StudyPartner.score recommendations))
  end.

End services.

(* ================================================================== *)
(** ** app.py *)

Module app.

(** The template filter [format_time]: the empty string as it is, and the
    argument itself whenever the conversion fails (a bare [except]). *)
Definition format_time_filter (time_str : string) : string :=
  if negb (str_truthy time_str) then ""
  else
    match
      '(hour, minute) ←
        match str_split ":" time_str with
        | [] => Raise (ValueError "not enough values to unpack")
        | [a] => _ ← py_int a; Raise (ValueError "not enough values to unpack")
        | [a; b] => hour ← py_int a; minute ← py_int b; Ok (hour, minute)
        | a :: b :: c :: _ =>
            _ ← py_int a; _ ← py_int b; _ ← py_int c;
            Raise (ValueError "too many values to unpack")
        end;
      let ampm := if (hour <? 12)%Z then "AM" else "PM" in
      let display_hour := if (hour <=? 12)%Z then hour else (hour - 12)%Z in
      let display_hour := if (display_hour =? 0)%Z then 12%Z else display_hour in
      Ok (int_to_str display_hour ++ ":" ++ int_to_str_02d minute ++ " " ++ ampm)
    with
    | Ok formatted => formatted
    | Raise _ => time_str
    end.

End app.

(* ================================================================== *)
(** ** Vocabulary of the statements *)

Import algorithm.

(** A field made of decimal digits only, and the number it writes. *)
Fixpoint all_digits (s : string) : bool :=
  match s with
  | EmptyString => true
  | String c s' => bool_decide (is_Some (digit_value c)) && all_digits s'
  end.

Definition numeric (s : string) : bool := str_truthy s && all_digits s.

Fixpoint digits_value (acc : Z) (s : string) : Z :=
  match s with
  | EmptyString => acc
  | String c s' => digits_value (10 * acc + default 0%Z (digit_value c)) s'
  end.

(** [timeToMinutes] as the specification words it: "HH:MM" with exactly one
    colon, both fields numeric, hour in 0-23 and minute in 0-59 gives
    hours*60 + minutes, every other input gives 0. *)
Definition timeToMinutes_spec (s : string) : Z :=
  match str_split ":" s with
  | [h; m] =>
      if numeric h && numeric m
         && (digits_value 0 h <=? 23)%Z && (digits_value 0 m <=? 59)%Z
      then (digits_value 0 h * 60 + digits_value 0 m)%Z
      else 0%Z
  | _ => 0%Z
  end.

(** The zero-padded clock string of an hour and a minute. *)
Definition clock_string (h m : nat) : string := two_digits h ++ ":" ++ two_digits m.

Definition is_HHMM (s : string) : Prop :=
  ∃ h m, (h < 24)%nat ∧ (m < 60)%nat ∧ s = clock_string h m.

Import models services app.

(** The day of the week of an instant as a [DayType]: the value of
    [DayType(now.strftime('%A').lower())]. *)
Definition day_of (now : datetime) : DayType :=
  match dt_weekday now with
  | Monday => MONDAY | Tuesday => TUESDAY | Wednesday => WEDNESDAY
  | Thursday => THURSDAY | Friday => FRIDAY | Saturday => SATURDAY
  | Sunday => SUNDAY
  end.

(** A schedule entry of the services as the engine's JSON document. *)
Definition class_info_of (s : Schedule.t) : ClassInfo :=
  {| courseCode := Some (Schedule.course_code s);
     courseName := Some (Schedule.course_name s);
     day := Some (DayType_value (Schedule.day s));
     startTime := Some (Schedule.start_time s);
     endTime := Some (Schedule.end_time s);
     location := Schedule.location s |}.




(** Minutes since midnight of an instant. *)
Definition minute_of_day (now : datetime) : Z :=
  Z.of_nat (60 * dt_hour now + dt_minute now).

(** Vocabulary of the recommendation loop: the courses a candidate shares
    with the requester, which entries of the user store are kept, and what
    the record built for a kept entry holds. *)
Definition shared_with (schedule_service : ScheduleService)
    (user_courses : gset string) (other_user_id : string) : gset string :=
  user_courses ∩ course_set (get_user_schedules schedule_service other_user_id).

Definition is_candidate (schedule_service : ScheduleService) (user_id : string)
    (user_courses : gset string) (item : string * User.t) : bool :=
  negb (String.eqb item.1 user_id)
  && bool_decide (shared_with schedule_service user_courses item.1 ≠ ∅).

Definition partner_of_item (schedule_service : ScheduleService)
    (status_service : StatusService) (user : User.t) (user_courses : gset string)
    (p : StudyPartner.t) (item : string * User.t) : Prop :=
  let shared_classes := elements (shared_with schedule_service user_courses item.1) in
  let other_status := get_user_status status_service item.1 in
  StudyPartner.id p = User.id item.2 ∧
  StudyPartner.username p = User.username item.2 ∧
  StudyPartner.major p = User.major item.2 ∧
  StudyPartner.avatar p = User.avatar item.2 ∧
  StudyPartner.shared_classes p = shared_classes ∧
  StudyPartner.score p = score_of user item.2 other_status shared_classes ∧
  StudyPartner.reason p = reason_of user item.2 other_status shared_classes.

(** Every key of the user store is the id of the user stored under it, as
    [create_or_get_user] stores them. *)
Definition users_keyed_by_id (schedule_service : ScheduleService) : Prop :=
  ∀ k u, (k, u) ∈ users schedule_service → User.id u = k.

(** What the status board holds for an entry of the user store. *)
Definition board_entry_of (self : StatusService) (schedule_service : ScheduleService)
    (current_day : DayType) (current_time : string)
    (e : StatusBoardUser.t) (item : string * User.t) : Prop :=
  StatusBoardUser.id e = User.id item.2 ∧
  StatusBoardUser.username e = User.username item.2 ∧
  StatusBoardUser.major e = User.major item.2 ∧
  StatusBoardUser.avatar e = User.avatar item.2 ∧
  StatusBoardUser.manual_status e = StatusType_value (get_user_status self item.1) ∧
  StatusBoardUser.current_class e
  = current_class_scan (get_user_schedules schedule_service item.1)
      current_day current_time.

(** An entry of the day whose interval holds the time, compared as strings. *)
Definition holds_time (current_day : DayType) (current_time : string)
    (s : Schedule.t) : Prop :=
  Schedule.day s = current_day ∧
  String.leb (Schedule.start_time s) current_time = true ∧
  String.leb current_time (Schedule.end_time s) = true.

(** The bookkeeping of the schedule store: every id listed for a user is the
    key of an entry that belongs to that user and carries that id. *)
Definition schedules_owned (self : ScheduleService) : Prop :=
  ∀ uid sid, sid ∈ default [] (user_schedules self !! uid) →
    ∃ s, schedules self !! sid = Some s ∧
         Schedule.user_id s = uid ∧ Schedule.id s = sid.

(** The keys of the user store. *)
Definition user_keys (self : ScheduleService) : list string :=
  map fst (users self).

(** The 12-hour rendering of an hour and a minute. *)
Definition twelve_hour (h m : nat) : string :=
  nat_to_str ((h + 11) mod 12 + 1) ++ ":" ++ two_digits m ++ " "
  ++ (if (h <? 12)%nat then "AM" else "PM").

(** An entry of the day that starts after the time, compared as strings. *)
Definition starts_later (current_day : DayType) (current_time : string)
    (s : Schedule.t) : Prop :=
  Schedule.day s = current_day ∧
  String.ltb current_time (Schedule.start_time s) = true.





(** ** Sample data *)

(** A full-width digit nine (U+FF19), as its three UTF-8 bytes, and a run
    of ASCII zeros. *)
Definition fullwidth_nine : string :=
  String (ascii_of_nat 239) (String (ascii_of_nat 188) (String (ascii_of_nat 153) "")).

Definition zeros (n : nat) : string := string_of_list_ascii (repeat "0"%char n).

Definition at_time (d : weekday) (h m : nat) (iso : string)
    (Hh : (h <? 24)%nat = true) (Hm : (m <? 60)%nat = true) : datetime :=
  {| dt_weekday := d; dt_hour := h; dt_minute := m; dt_isoformat := iso;
     dt_hour_ok := Hh; dt_minute_ok := Hm |}.

Definition monday_0930 : datetime :=
  at_time Monday 9 30 "2025-01-13T09:30:00" eq_refl eq_refl.


Definition example_schedules : list Schedule.t :=
  [ Schedule.mk "s1" "alice" "CS 15-122" "Principles of Imperative Computation"
      MONDAY "09:00" "10:20" (Some "GHC 4401");
    Schedule.mk "s2" "alice" "MATH 21-127" "Concepts of Mathematics"
      TUESDAY "11:30" "12:50" (Some "DH 2210");
    Schedule.mk "s3" "bob" "CS 15-122" "Principles of Imperative Computation"
      MONDAY "09:00" "10:20" (Some "GHC 4401");
    Schedule.mk "s4" "bob" "MATH 21-127" "Concepts of Mathematics"
      THURSDAY "11:30" "12:50" (Some "DH 2210");
    Schedule.mk "s5" "carol" "MATH 21-127" "Concepts of Mathematics"
      TUESDAY "11:30" "12:50" (Some "DH 2210") ].

Definition example_schedule_service : ScheduleService :=
  let s := (create_or_get_user ScheduleService_init "Alice Chen" "CS" "alice").2 in
  let s := (create_or_get_user s "Bob Smith" "CS" "bob").2 in
  let s := (create_or_get_user s "Carol Johnson" "MATH" "carol").2 in
  foldl add_schedule s example_schedules.

Definition example_status_service : StatusService :=
  update_user_status {| user_statuses := ∅ |} "carol" SOCIAL "st1" monday_0930.

(** Another status store: bob offers help and carol is studying. *)
Definition helping_status_service : StatusService :=
  update_user_status
    (update_user_status {| user_statuses := ∅ |} "bob" HELP "st2" monday_0930)
    "carol" STUDYING "st3" monday_0930.

(** The sample store with two more users: erin has no schedule entries, and
    frank's only course is taken by nobody else. *)
Definition crowded_schedule_service : ScheduleService :=
  let s := (create_or_get_user example_schedule_service "Erin Park" "ECE" "erin").2 in
  let s := (create_or_get_user s "Frank Wu" "ART" "frank").2 in
  add_schedule s
    (Schedule.mk "s6" "frank" "ART 60-101" "Drawing" MONDAY "13:00" "14:20" None).

(** The same entries as the engine reads them from its JSON file, and the
    statuses written by [create_sample_data]. *)
Definition example_engine : RecommendationEngine :=
  {| algorithm.users := ∅;
     algorithm.schedules :=
       list_to_map
         (map (fun uid =>
                 (uid, {| userId := Some uid;
                          schedule := Some (map class_info_of
                            (get_user_schedules example_schedule_service uid)) |}))
              ["alice"; "bob"; "carol"]);
     statuses :=
       list_to_map
         [ ("alice", {| manualStatus := Some "studying"; lastUpdated := Some "2025-01-10T14:00:00" |});
           ("bob", {| manualStatus := Some "free"; lastUpdated := Some "2025-01-10T14:30:00" |});
           ("carol", {| manualStatus := Some "social"; lastUpdated := Some "2025-01-10T15:00:00" |});
           ("david", {| manualStatus := Some "tired"; lastUpdated := Some "2025-01-10T15:30:00" |});
           ("emma", {| manualStatus := Some "help"; lastUpdated := Some "2025-01-10T16:00:00" |}) ] |}.

(** An engine holding a status tag outside the table of
    [get_user_availability]. *)
Definition napping_engine : RecommendationEngine :=
  {| algorithm.users := ∅;
     algorithm.schedules := ∅;
     statuses :=
       {[ "frank" := {| manualStatus := Some "napping";
                        lastUpdated := Some "2025-01-10T17:00:00" |} ]} |}.

(** A store with one user whose only entry carries an empty course code, as
    the schedule form accepts it. *)
Definition blank_code_entry : Schedule.t :=
  Schedule.mk "s1" "dana" "" "Reading group" MONDAY "09:00" "10:20" None.

Definition blank_code_service : ScheduleService :=
  add_schedule
    (create_or_get_user ScheduleService_init "Dana Lee" "CS" "dana").2
    blank_code_entry.

(* ================================================================== *)
(** * Properties *)

(** ** Strings *)

Lemma str_split_nonempty sep s : str_split sep s ≠ [].
Proof. destruct s as [|c s]; simpl; [done|]. repeat case_match; done. Qed.

Lemma str_split_no_sep sep s :
  str_contains sep s = false → str_split sep s = [s].
Proof.
  induction s as [|c s IH]; simpl; [done|].
  destruct (Ascii.eqb c sep); [done|]. intros H. by rewrite IH.
Qed.

Lemma str_split_app sep h m :
  str_contains sep h = false →
  str_split sep (h ++ String sep m) = h :: str_split sep m.
Proof.
  induction h as [|c h IH]; simpl.
  - intros _. by rewrite Ascii.eqb_refl.
  - destruct (Ascii.eqb c sep); [done|]. intros H. by rewrite IH.
Qed.

Lemma str_contains_app sep h m :
  str_contains sep (h ++ m) = str_contains sep h || str_contains sep m.
Proof.
  induction h as [|c h IH]; simpl; [done|]. by destruct (Ascii.eqb c sep).
Qed.

Lemma str_split_one sep s m :
  str_split sep s = [m] → s = m ∧ str_contains sep s = false.
Proof.
  revert m. induction s as [|c s IH]; simpl; intros m.
  - by intros [= <-].
  - destruct (Ascii.eqb c sep).
    + intros [= _ H]. by apply str_split_nonempty in H.
    + destruct (str_split sep s) as [|x t] eqn:Es;
        [by apply str_split_nonempty in Es|].
      intros [= <- ->]. destruct (IH x eq_refl) as [-> ?]. done.
Qed.

(** A string that splits into exactly two fields is those two fields around
    one separator. *)
Lemma str_split_two sep s h m :
  str_split sep s = [h; m] →
  s = h ++ String sep m ∧ str_contains sep h = false ∧ str_contains sep m = false.
Proof.
  revert h. induction s as [|c s IH]; simpl; intros h; [done|].
  destruct (Ascii.eqb c sep) eqn:E.
  - apply Ascii.eqb_eq in E as ->. intros [= <- Hs].
    apply str_split_one in Hs as [-> ?]. done.
  - destruct (str_split sep s) as [|x t] eqn:Es;
      [by apply str_split_nonempty in Es|].
    intros [= <- ->]. destruct (IH x eq_refl) as (-> & Hx & Hm).
    simpl. by rewrite E.
Qed.

(** ** [int()] and [time_to_minutes] *)

Lemma long_from_string_raise s e :
  long_from_string s = Raise e → ∃ msg, e = ValueError msg.
Proof.
  unfold long_from_string, invalid_literal, exceeds_the_limit. intros H.
  repeat case_match; simplify_eq; eauto.
Qed.

Lemma py_int_raise s e : py_int s = Raise e → ∃ msg, e = ValueError msg.
Proof. apply long_from_string_raise. Qed.

Lemma time_to_minutes_fields s :
  time_to_minutes s =
  Ok (match str_split ":" s with
      | [h; m] =>
          match py_int h, py_int m with
          | Ok hours, Ok minutes =>
              if ((0 <=? hours) && (hours <=? 23) && (0 <=? minutes) && (minutes <=? 59))%Z
              then (hours * 60 + minutes)%Z else 0%Z
          | _, _ => 0%Z
          end
      | _ => 0%Z
      end).
Proof.
  unfold time_to_minutes.
  destruct (str_contains ":" s) eqn:Hc; simpl.
  - destruct (str_split ":" s) as [|h [|m [|x l]]]; simpl; try done.
    destruct (py_int h) as [hours|e] eqn:Hh; simpl.
    + destruct (py_int m) as [minutes|e] eqn:Hm; simpl.
      * by case_match.
      * by apply py_int_raise in Hm as [msg ->].
    + by apply py_int_raise in Hh as [msg ->].
  - by rewrite (str_split_no_sep _ _ Hc).
Qed.

Lemma time_to_minutes_total s : time_to_minutes s = Ok (minutes_of s).
Proof. unfold minutes_of. by rewrite time_to_minutes_fields. Qed.

Lemma minutes_of_range s : (0 ≤ minutes_of s ≤ 1439)%Z.
Proof.
  unfold minutes_of. rewrite time_to_minutes_fields.
  repeat case_match; try lia.
Qed.

Lemma scan_digits_all_digits s acc :
  all_digits s = true → scan_digits false acc s = Some (digits_value acc s, EmptyString).
Proof.
  revert acc. induction s as [|c s IH]; simpl; intros acc; [done|].
  intros [Hc Hs]%andb_prop. apply bool_decide_eq_true in Hc as [d Hd].
  rewrite Hd. simpl. by apply IH.
Qed.

Lemma digit_not_space c d : digit_value c = Some d → is_space c = false.
Proof.
  unfold digit_value, is_space. intros H. case_match; [|done].
  apply andb_prop in H0 as [?%Nat.leb_le ?%Nat.leb_le].
  apply orb_false_intro; [apply andb_false_intro2|]; 
  [apply Nat.leb_gt|apply Nat.eqb_neq]; lia.
Qed.

Lemma digit_not_sign c d sign :
  digit_value c = Some d → sign = "-"%char ∨ sign = "+"%char → Ascii.eqb c sign = false.
Proof.
  intros H Hs. apply Ascii.eqb_neq. intros ->.
  destruct Hs as [-> | ->]; vm_compute in H; done.
Qed.

Lemma digit_value_ascii c d : digit_value c = Some d → (N_of_ascii c < 127)%N.
Proof.
  unfold digit_value. intros H. case_match; [|done].
  apply andb_prop in H0 as [_ ?%Nat.leb_le].
  unfold nat_of_ascii in *. lia.
Qed.

Lemma transform_all_digits s :
  all_digits s = true → transform_decimal_and_space s = s.
Proof.
  unfold transform_decimal_and_space.
  induction s as [|c s IH]; [done|].
  cbn [all_digits]. intros [Hc Hs]%andb_prop.
  apply bool_decide_eq_true in Hc as [d Hd].
  pose proof (digit_value_ascii _ _ Hd) as Hlt.
  cbn [utf8_decode].
  replace (N_of_ascii c <? 128)%N with true by (symmetry; apply N.ltb_lt; lia).
  cbn [map string_of_list_ascii]. rewrite (IH Hs). f_equal.
  unfold to_ascii_char.
  replace (N_of_ascii c <? 127)%N with true by (symmetry; by apply N.ltb_lt).
  apply ascii_N_embedding.
Qed.

Lemma count_digits_all_digits s :
  all_digits s = true → count_digits s = String.length s.
Proof.
  induction s as [|c s IH]; simpl; [done|].
  intros [Hc Hs]%andb_prop. apply bool_decide_eq_true in Hc as [d Hd].
  rewrite Hd. f_equal. by apply IH.
Qed.

Lemma long_from_string_numeric s :
  numeric s = true → (String.length s ≤ max_str_digits)%nat →
  long_from_string s = Ok (digits_value 0 s).
Proof.
  unfold numeric. destruct s as [|c s]; [done|].
  cbn [str_truthy all_digits andb String.length].
  intros [Hc Hs]%andb_prop Hlen. apply bool_decide_eq_true in Hc as [d Hd].
  unfold long_from_string. cbn [skip_spaces]. rewrite (digit_not_space _ _ Hd).
  rewrite !(digit_not_sign _ _ _ Hd) by auto. rewrite Hd.
  rewrite (scan_digits_all_digits _ _ Hs), (count_digits_all_digits _ Hs).
  replace (max_str_digits <? S (String.length s))%nat with false
    by (symmetry; apply Nat.ltb_ge; lia).
  cbn [skip_spaces digits_value]. rewrite Hd. done.
Qed.

Lemma py_int_numeric s :
  numeric s = true → (String.length s ≤ max_str_digits)%nat →
  py_int s = Ok (digits_value 0 s).
Proof.
  intros Hn Hlen. unfold py_int.
  rewrite transform_all_digits; [by apply long_from_string_numeric|].
  unfold numeric in Hn. by apply andb_prop in Hn as [_ ?].
Qed.

Lemma all_digits_no_colon s : all_digits s = true → str_contains ":" s = false.
Proof.
  induction s as [|c s IH]; simpl; [done|].
  intros [Hc Hs]%andb_prop. apply bool_decide_eq_true in Hc as [d Hd].
  destruct (Ascii.eqb c ":") eqn:E; [|by apply IH].
  apply Ascii.eqb_eq in E as ->. vm_compute in Hd. done.
Qed.

Lemma time_to_minutes_one_colon h m :
  str_contains ":" h = false → str_contains ":" m = false →
  time_to_minutes (h ++ ":" ++ m) =
  Ok (match py_int h, py_int m with
      | Ok hours, Ok minutes =>
          if ((0 <=? hours) && (hours <=? 23) && (0 <=? minutes) && (minutes <=? 59))%Z
          then (hours * 60 + minutes)%Z else 0%Z
      | _, _ => 0%Z
      end).
Proof.
  intros Hh Hm. rewrite time_to_minutes_fields.
  change (h ++ ":" ++ m) with (h ++ String ":" m).
  by rewrite (str_split_app _ _ _ Hh), (str_split_no_sep _ _ Hm).
Qed.

(** Claim C5, amended.  [time_to_minutes] never raises and its value lies in
    0..1439.  It returns hours*60 + minutes when the string has exactly one
    colon and each of the two fields is accepted by [int()] (optional
    surrounding whitespace, an optional sign, decimal digits with single
    underscores allowed between them, at most 4300 digits; whitespace and
    decimal digits of any script count) with the hour value in 0..23 and the
    minute value in 0..59, and it returns 0 for every other input.  Fields
    made of at most 4300 ASCII digits only are a special case.  In particular
    "09:30" gives 570, "invalid" gives 0 and "24:00" gives 0; a full-width
    nine before ":30" gives 570; an hour of 4299 zeros and a nine gives 570,
    one of 4300 zeros and a nine gives 0. *)
Theorem time_to_minutes_amended (s : string) :
  (∃ n, time_to_minutes s = Ok n ∧ (0 ≤ n ≤ 1439)%Z) ∧
  (∀ h m hours minutes,
     s = h ++ ":" ++ m →
     str_contains ":" h = false → str_contains ":" m = false →
     py_int h = Ok hours → py_int m = Ok minutes →
     (0 ≤ hours ≤ 23)%Z → (0 ≤ minutes ≤ 59)%Z →
     time_to_minutes s = Ok (hours * 60 + minutes)%Z) ∧
  ((¬ ∃ h m hours minutes,
       s = h ++ ":" ++ m ∧
       str_contains ":" h = false ∧ str_contains ":" m = false ∧
       py_int h = Ok hours ∧ py_int m = Ok minutes ∧
       (0 ≤ hours ≤ 23)%Z ∧ (0 ≤ minutes ≤ 59)%Z) →
   time_to_minutes s = Ok 0%Z) ∧
  (∀ h m,
     s = h ++ ":" ++ m → numeric h = true → numeric m = true →
     (String.length h ≤ max_str_digits)%nat →
     (String.length m ≤ max_str_digits)%nat →
     (digits_value 0 h ≤ 23)%Z → (digits_value 0 m ≤ 59)%Z →
     time_to_minutes s = Ok (digits_value 0 h * 60 + digits_value 0 m)%Z) ∧
  time_to_minutes "09:30" = Ok 570%Z ∧
  time_to_minutes "invalid" = Ok 0%Z ∧
  time_to_minutes "24:00" = Ok 0%Z ∧
  time_to_minutes (fullwidth_nine ++ ":30") = Ok 570%Z ∧
  time_to_minutes (zeros 4299 ++ "9:30") = Ok 570%Z ∧
  time_to_minutes (zeros 4300 ++ "9:30") = Ok 0%Z.
Proof.
  split_and!;
    [| | | |reflexivity|reflexivity|reflexivity|vm_compute; reflexivity..].
  - exists (minutes_of s). split; [apply time_to_minutes_total|apply minutes_of_range].
  - intros h m hours minutes -> Hh Hm Eh Em Rh Rm.
    rewrite (time_to_minutes_one_colon _ _ Hh Hm), Eh, Em.
    replace ((0 <=? hours) && (hours <=? 23) && (0 <=? minutes) && (minutes <=? 59))%Z
      with true; [done|].
    symmetry. repeat (apply andb_true_intro; split); apply Z.leb_le; lia.
  - intros Hno. rewrite time_to_minutes_fields. f_equal.
    destruct (str_split ":" s) as [|h [|m [|x l]]] eqn:Es; try done.
    destruct (py_int h) as [hours|] eqn:Eh; [|done].
    destruct (py_int m) as [minutes|] eqn:Em; [|done].
    case_match eqn:Er; [|done].
    exfalso. apply Hno. exists h, m, hours, minutes.
    apply str_split_two in Es as (-> & ? & ?).
    repeat (apply andb_prop in Er as [Er ?]).
    split_and!; try done; by apply Z.leb_le.
  - intros h m -> [Th Hh]%andb_prop [Tm Hm]%andb_prop Lh Lm Rh Rm.
    assert (∀ x acc, (0 ≤ acc)%Z → (0 ≤ digits_value acc x)%Z) as Hpos.
    { induction x as [|c x IH]; simpl; intros acc Hacc; [done|].
      apply IH. unfold digit_value. case_match; simpl; lia. }
    rewrite (time_to_minutes_one_colon h m) by by apply all_digits_no_colon.
    rewrite !py_int_numeric by (try done; unfold numeric; by apply andb_true_intro).
    replace ((0 <=? digits_value 0 h) && (digits_value 0 h <=? 23)
             && (0 <=? digits_value 0 m) && (digits_value 0 m <=? 59))%Z
      with true; [done|].
    symmetry. repeat (apply andb_true_intro; split); apply Z.leb_le; try lia;
      by apply Hpos.
Qed.

Lemma time_to_minutes_amended_witness :
  time_to_minutes "09:30" = Ok (9 * 60 + 30)%Z.
Proof.
  apply (proj1 (proj2 (time_to_minutes_amended "09:30")) "09" "30" 9%Z 30%Z);
    try reflexivity; lia.
Defined.

(** Claim C5 as stated fails: the hour field "1_0" is not numeric, so the
    claim asks for 0, but [int()] reads it as 10 and the result is 630. *)
Lemma time_to_minutes_underscore_field :
  numeric "1_0" = false ∧
  timeToMinutes_spec "1_0:30" = 0%Z ∧
  time_to_minutes "1_0:30" = Ok 630%Z.
Proof. split_and!; reflexivity. Qed.

(** Claim C4.  [is_time_between] always returns a truth value.  When the end
    is not earlier than the start in minutes it is true exactly on the closed
    interval start <= current <= end; when the end is strictly earlier than
    the start it is true exactly when current >= start or current <= end.
    The three sample calls evaluate as listed. *)
Theorem is_time_between_closed_or_wrapping (current start end_ : string) :
  (∃ b, is_time_between current start end_ = Ok b ∧
        ((minutes_of start ≤ minutes_of end_)%Z →
         (b = true ↔ (minutes_of start ≤ minutes_of current ≤ minutes_of end_)%Z)) ∧
        ((minutes_of end_ < minutes_of start)%Z →
         (b = true ↔ ((minutes_of start ≤ minutes_of current)%Z
                      ∨ (minutes_of current ≤ minutes_of end_)%Z)))) ∧
  is_time_between "10:00" "09:00" "11:00" = Ok true ∧
  is_time_between "08:00" "09:00" "11:00" = Ok false ∧
  is_time_between "23:30" "22:00" "01:00" = Ok true.
Proof.
  split_and!; try reflexivity.
  unfold is_time_between. rewrite !time_to_minutes_total. simpl.
  destruct (minutes_of end_ <? minutes_of start)%Z eqn:E; eexists; (split; [done|]).
  - apply Z.ltb_lt in E. split; [lia|]. intros _.
    rewrite orb_true_iff, !Z.leb_le. lia.
  - apply Z.ltb_ge in E. split; [|lia]. intros _.
    rewrite andb_true_iff, !Z.leb_le. lia.
Qed.

Lemma is_time_between_closed_or_wrapping_witness :
  ∃ b, is_time_between "23:30" "22:00" "01:00" = Ok b ∧ b = true.
Proof.
  destruct (proj1 (is_time_between_closed_or_wrapping "23:30" "22:00" "01:00"))
    as (b & Hb & _ & Hwrap).
  exists b. split; [exact Hb|].
  apply Hwrap; [vm_compute; reflexivity|]. left. vm_compute. discriminate.
Defined.

Lemma digits_value_nonneg s acc : (0 ≤ acc)%Z → (0 ≤ digits_value acc s)%Z.
Proof.
  revert acc. induction s as [|c s IH]; simpl; intros acc Hacc; [done|].
  apply IH. unfold digit_value. case_match; simpl; lia.
Qed.

Lemma time_to_minutes_digit_fields h m :
  numeric h = true → numeric m = true →
  (String.length h ≤ max_str_digits)%nat →
  (String.length m ≤ max_str_digits)%nat →
  (digits_value 0 h ≤ 23)%Z → (digits_value 0 m ≤ 59)%Z →
  time_to_minutes (h ++ ":" ++ m) = Ok (digits_value 0 h * 60 + digits_value 0 m)%Z.
Proof.
  intros Nh Nm Lh Lm Rh Rm.
  pose proof (digits_value_nonneg h 0 ltac:(lia)).
  pose proof (digits_value_nonneg m 0 ltac:(lia)).
  destruct (andb_prop _ _ Nh) as [_ Dh]. destruct (andb_prop _ _ Nm) as [_ Dm].
  rewrite (time_to_minutes_one_colon h m) by by apply all_digits_no_colon.
  rewrite !py_int_numeric by done.
  replace ((0 <=? digits_value 0 h) && (digits_value 0 h <=? 23)
           && (0 <=? digits_value 0 m) && (digits_value 0 m <=? 59))%Z
    with true; [done|].
  symmetry. repeat (apply andb_true_intro; split); apply Z.leb_le; lia.
Qed.

(** ** Clock strings *)

Lemma two_digits_numeric n :
  (n < 100)%nat →
  numeric (two_digits n) = true ∧ digits_value 0 (two_digits n) = Z.of_nat n.
Proof.
  intros Hn.
  assert (forallb (fun k => numeric (two_digits k)
                            && (digits_value 0 (two_digits k) =? Z.of_nat k)%Z)
                  (seq 0 100) = true) as H by (vm_compute; reflexivity).
  rewrite forallb_forall in H. specialize (H n).
  destruct (andb_prop _ _ (H ltac:(apply in_seq; lia))) as [? ?%Z.eqb_eq]. done.
Qed.

Lemma two_digits_length n :
  (n < 100)%nat → (String.length (two_digits n) ≤ max_str_digits)%nat.
Proof.
  intros Hn.
  assert (forallb (fun k => (String.length (two_digits k) =? 2)%nat) (seq 0 100) = true)
    as H by (vm_compute; reflexivity).
  rewrite forallb_forall in H. specialize (H n ltac:(apply in_seq; lia)).
  apply Nat.eqb_eq in H. rewrite H. unfold max_str_digits. lia.
Qed.

Lemma time_to_minutes_clock_string h m :
  (h < 24)%nat → (m < 60)%nat →
  time_to_minutes (clock_string h m) = Ok (Z.of_nat (60 * h + m)).
Proof.
  intros Hh Hm.
  destruct (two_digits_numeric h) as [Nh Vh]; [lia|].
  destruct (two_digits_numeric m) as [Nm Vm]; [lia|].
  pose proof (two_digits_length h ltac:(lia)) as Lh.
  pose proof (two_digits_length m ltac:(lia)) as Lm.
  unfold clock_string.
  rewrite (time_to_minutes_digit_fields (two_digits h) (two_digits m) Nh Nm Lh Lm)
    by lia.
  f_equal. lia.
Qed.

Lemma minutes_of_clock_string h m :
  (h < 24)%nat → (m < 60)%nat → minutes_of (clock_string h m) = Z.of_nat (60 * h + m).
Proof.
  intros Hh Hm. unfold minutes_of. by rewrite time_to_minutes_clock_string.
Qed.

Lemma compare_two_digits a b :
  (a < 100)%nat → (b < 100)%nat →
  String.compare (two_digits a) (two_digits b) = Nat.compare a b.
Proof.
  intros Ha Hb.
  assert (forallb (fun x => forallb (fun y =>
            bool_decide (String.compare (two_digits x) (two_digits y) = Nat.compare x y))
            (seq 0 100)) (seq 0 100) = true) as H by (vm_compute; reflexivity).
  rewrite forallb_forall in H. specialize (H a ltac:(apply in_seq; lia)).
  rewrite forallb_forall in H. specialize (H b ltac:(apply in_seq; lia)).
  by apply bool_decide_eq_true in H.
Qed.

Lemma compare_app_same_length (a b x y : string) :
  String.length a = String.length b →
  String.compare (a ++ x) (b ++ y) =
  match String.compare a b with Eq => String.compare x y | c => c end.
Proof.
  revert b. induction a as [|c a IH]; intros [|d b]; simpl; try done.
  intros [= Hl]. destruct (Ascii.compare c d); [by apply IH|done..].
Qed.

Lemma compare_cons_same c x y :
  String.compare (String c x) (String c y) = String.compare x y.
Proof.
  cbn [String.compare]. unfold Ascii.compare. by rewrite N.compare_refl.
Qed.

Lemma compare_clock_string h m h' m' :
  (h < 100)%nat → (m < 100)%nat → (h' < 100)%nat → (m' < 100)%nat →
  String.compare (clock_string h m) (clock_string h' m') =
  match Nat.compare h h' with Eq => Nat.compare m m' | c => c end.
Proof.
  intros. unfold clock_string.
  rewrite compare_app_same_length by reflexivity.
  rewrite compare_two_digits by assumption.
  destruct (Nat.compare h h'); [|done..].
  change (":" ++ two_digits m) with (String ":" (two_digits m)).
  change (":" ++ two_digits m') with (String ":" (two_digits m')).
  rewrite compare_cons_same. by apply compare_two_digits.
Qed.

(** On clock strings the order of strings is the order of minutes. *)
Lemma leb_clock_string h m h' m' :
  (h < 24)%nat → (m < 60)%nat → (h' < 24)%nat → (m' < 60)%nat →
  String.leb (clock_string h m) (clock_string h' m')
  = (Z.of_nat (60 * h + m) <=? Z.of_nat (60 * h' + m'))%Z.
Proof.
  intros. unfold String.leb. rewrite compare_clock_string by lia.
  destruct (Nat.compare_spec h h'); [destruct (Nat.compare_spec m m')|..];
    symmetry; first [apply Z.leb_le; lia | apply Z.leb_gt; lia].
Qed.

Lemma leb_HHMM s t :
  is_HHMM s → is_HHMM t → String.leb s t = (minutes_of s <=? minutes_of t)%Z.
Proof.
  intros (h & m & ? & ? & ->) (h' & m' & ? & ? & ->).
  rewrite !minutes_of_clock_string by done. by apply leb_clock_string.
Qed.

Lemma strftime_HM_is_HHMM now : is_HHMM (strftime_HM now).
Proof.
  exists (dt_hour now), (dt_minute now). split_and!; [..|done].
  - apply Nat.ltb_lt, dt_hour_ok.
  - apply Nat.ltb_lt, dt_minute_ok.
Qed.

Lemma is_HHMM_truthy s : is_HHMM s → str_truthy s = true.
Proof. by intros (h & m & _ & _ & ->). Qed.

Lemma is_time_between_HHMM current start end_ :
  is_HHMM current → is_HHMM start → is_HHMM end_ →
  (minutes_of start ≤ minutes_of end_)%Z →
  is_time_between current start end_
  = Ok (String.leb start current && String.leb current end_).
Proof.
  intros Hc Hs He Hle. unfold is_time_between.
  rewrite !time_to_minutes_total. simpl.
  rewrite (proj2 (Z.ltb_ge _ _)) by done.
  by rewrite !leb_HHMM.
Qed.

(** ** The two current-class computations *)

Lemma DayType_of_value_now now :
  DayType_of_value (strftime_A_lower now) = Ok (day_of now).
Proof. unfold strftime_A_lower, day_of. by destruct (dt_weekday now). Qed.

Lemma day_is_class_info_of s now :
  day_is (class_info_of s) (strftime_A_lower now)
  = bool_decide (Schedule.day s = day_of now).
Proof.
  unfold day_is, strftime_A_lower, day_of. simpl.
  by destruct (Schedule.day s), (dt_weekday now).
Qed.

Lemma current_class_loop_scan schedules now :
  (∀ s, s ∈ schedules → Schedule.day s = day_of now →
        is_HHMM (Schedule.start_time s) ∧ is_HHMM (Schedule.end_time s) ∧
        (minutes_of (Schedule.start_time s) ≤ minutes_of (Schedule.end_time s))%Z) →
  current_class_loop (strftime_A_lower now) (strftime_HM now)
    (map class_info_of schedules)
  = Ok (match current_class_scan schedules (day_of now) (strftime_HM now) with
        | Some course_code => "In " ++ course_code
        | None => "Free"
        end).
Proof.
  induction schedules as [|s rest IH]; intros Hwf; [done|].
  cbn [map current_class_loop current_class_scan].
  rewrite day_is_class_info_of.
  assert (∀ s, s ∈ rest → Schedule.day s = day_of now →
        is_HHMM (Schedule.start_time s) ∧ is_HHMM (Schedule.end_time s) ∧
        (minutes_of (Schedule.start_time s) ≤ minutes_of (Schedule.end_time s))%Z) as Hrest.
  { intros s' Hs'. apply Hwf. by right. }
  destruct (bool_decide (Schedule.day s = day_of now)) eqn:Hday; [|by apply IH].
  apply bool_decide_eq_true in Hday.
  destruct (Hwf s ltac:(left) Hday) as (Hs & He & Hle).
  cbn -[String.leb is_time_between strftime_HM strftime_A_lower str_truthy].
  rewrite (is_HHMM_truthy _ Hs), (is_HHMM_truthy _ He).
  rewrite (is_time_between_HHMM _ _ _ (strftime_HM_is_HHMM now) Hs He Hle).
  cbn -[String.leb strftime_HM].
  destruct (String.leb _ _ && String.leb _ _); [done|by apply IH].
Qed.

(** Claim C10.  For zero-padded "HH:MM" strings with hour 0-23 and minute
    0-59 and a start that is not later than the end, the string comparison
    [start_time <= current <= end_time] of the services has the truth value
    of [is_time_between current start end].  Hence, when every entry of the
    day is of that shape, the scan of the services and
    [get_current_class_for_user] of the engine, run on the same entries,
    find the same class (or none). *)
Theorem string_order_agrees_with_is_time_between :
  (∀ current start end_,
     is_HHMM current → is_HHMM start → is_HHMM end_ →
     (minutes_of start ≤ minutes_of end_)%Z →
     is_time_between current start end_
     = Ok (String.leb start current && String.leb current end_)) ∧
  (∀ (schedule_service : ScheduleService) (engine : RecommendationEngine)
     (user_id : string) (document : UserSchedule) (now : datetime),
     algorithm.schedules engine !! user_id = Some document →
     schedule document
     = Some (map class_info_of (get_user_schedules schedule_service user_id)) →
     (∀ s, s ∈ get_user_schedules schedule_service user_id →
           Schedule.day s = day_of now →
           is_HHMM (Schedule.start_time s) ∧ is_HHMM (Schedule.end_time s) ∧
           (minutes_of (Schedule.start_time s) ≤ minutes_of (Schedule.end_time s))%Z) →
     get_current_class_for_user engine user_id now
     = Ok (match current_class_scan (get_user_schedules schedule_service user_id)
                   (day_of now) (strftime_HM now) with
           | Some course_code => "In " ++ course_code
           | None => "Free"
           end)).
Proof.
  split.
  - intros. by apply is_time_between_HHMM.
  - intros ss engine uid doc now Hdoc Hsched Hwf.
    unfold get_current_class_for_user, user_schedule_of. rewrite Hdoc, Hsched.
    cbn [default from_option id]. by apply current_class_loop_scan.
Qed.

Lemma string_order_agrees_with_is_time_between_witness :
  is_time_between "10:00" "09:00" "11:00"
  = Ok (String.leb "09:00" "10:00" && String.leb "10:00" "11:00") ∧
  get_current_class_for_user example_engine "alice" monday_0930
  = Ok (match current_class_scan (get_user_schedules example_schedule_service "alice")
                (day_of monday_0930) (strftime_HM monday_0930) with
        | Some course_code => "In " ++ course_code
        | None => "Free"
        end).
Proof.
  split.
  - apply (proj1 string_order_agrees_with_is_time_between).
    + exists 10%nat, 0%nat. split_and!; [lia|lia|reflexivity].
    + exists 9%nat, 0%nat. split_and!; [lia|lia|reflexivity].
    + exists 11%nat, 0%nat. split_and!; [lia|lia|reflexivity].
    + vm_compute. discriminate.
  - eapply (proj2 string_order_agrees_with_is_time_between).
    + vm_compute. reflexivity.
    + vm_compute. reflexivity.
    + intros s Hs.
      assert (get_user_schedules example_schedule_service "alice"
              = [ Schedule.mk "s1" "alice" "CS 15-122" "Principles of Imperative Computation"
                    MONDAY "09:00" "10:20" (Some "GHC 4401");
                  Schedule.mk "s2" "alice" "MATH 21-127" "Concepts of Mathematics"
                    TUESDAY "11:30" "12:50" (Some "DH 2210") ]) as E
        by (vm_compute; reflexivity).
      rewrite E in Hs.
      apply elem_of_cons in Hs as [-> | Hs]; [|apply elem_of_cons in Hs as [-> | Hs]].
      * intros _. split_and!.
        -- exists 9%nat, 0%nat. split_and!; [lia|lia|reflexivity].
        -- exists 10%nat, 20%nat. split_and!; [lia|lia|reflexivity].
        -- vm_compute. discriminate.
      * intros Hd. vm_compute in Hd. discriminate.
      * by apply elem_of_nil in Hs.
Defined.

(** ** The recently ended class *)


Lemma minutes_of_now now : minutes_of (strftime_HM now) = minute_of_day now.
Proof.
  unfold strftime_HM, minute_of_day. fold (clock_string (dt_hour now) (dt_minute now)).
  apply minutes_of_clock_string.
  - apply Nat.ltb_lt, dt_hour_ok.
  - apply Nat.ltb_lt, dt_minute_ok.
Qed.



(** ** Availability *)

(** Claim C8, amended.  A user without a status record is reported as
    "unknown" with both preferences neutral.  For a user with a record the
    reported status is the stored tag itself ("free" when the record has no
    tag), and the preferences are: social high, study low for "social" and
    "want to hang out"; both low for "tired" and "busy"; study high, social
    low for "studying" and "help"; both neutral for "free" and for every
    other tag. *)
Theorem get_user_availability_table (self : RecommendationEngine) (user_id : string) :
  let a := get_user_availability self user_id in
  (statuses self !! user_id = None →
     a = {| status := "unknown"; social_preference := "neutral";
            study_preference := "neutral" |}) ∧
  (∀ record, statuses self !! user_id = Some record →
     let manual_status := default "free" (manualStatus record) in
     status a = manual_status ∧
     (manual_status = "social" ∨ manual_status = "want to hang out" →
        social_preference a = "high" ∧ study_preference a = "low") ∧
     (manual_status = "tired" ∨ manual_status = "busy" →
        social_preference a = "low" ∧ study_preference a = "low") ∧
     (manual_status = "studying" ∨ manual_status = "help" →
        study_preference a = "high" ∧ social_preference a = "low") ∧
     (manual_status = "free" →
        social_preference a = "neutral" ∧ study_preference a = "neutral") ∧
     (manual_status ∉ ["social"; "want to hang out"; "tired"; "busy";
                        "studying"; "help"; "free"] →
        social_preference a = "neutral" ∧ study_preference a = "neutral")).
Proof.
  intros a. subst a. unfold get_user_availability. split.
  - by intros ->.
  - intros record ->. cbv zeta.
    set (ms := default "free" (manualStatus record)).
    assert (∀ x l, str_in x l = true ↔ x ∈ l) as Hin.
    { intros x l. unfold str_in. rewrite existsb_exists. split.
      - intros (y & Hy%list_elem_of_In & ->%String.eqb_eq). done.
      - intros H. exists x. split; [by apply list_elem_of_In|apply String.eqb_refl]. }
    split_and!.
    + by repeat case_match.
    + intros H. 
      assert (str_in ms ["social"; "want to hang out"] = true) as ->; [|done].
      apply Hin. rewrite !elem_of_cons. tauto.
    + intros H. destruct H as [-> | ->]; done.
    + intros H. destruct H as [-> | ->]; done.
    + intros ->. done.
    + intros H.
      assert (str_in ms ["social"; "want to hang out"] = false) as ->.
      { apply not_true_is_false. intros E%Hin. apply H.
        rewrite !elem_of_cons in *. tauto. }
      assert (str_in ms ["tired"; "busy"] = false) as ->.
      { apply not_true_is_false. intros E%Hin. apply H.
        rewrite !elem_of_cons in *. tauto. }
      assert (str_in ms ["studying"; "help"] = false) as ->.
      { apply not_true_is_false. intros E%Hin. apply H.
        rewrite !elem_of_cons in *. tauto. }
      by case_match.
Qed.

Lemma get_user_availability_table_witness :
  social_preference (get_user_availability example_engine "carol") = "high" ∧
  study_preference (get_user_availability example_engine "carol") = "low".
Proof.
  assert (statuses example_engine !! "carol"
          = Some {| manualStatus := Some "social";
                    lastUpdated := Some "2025-01-10T15:00:00" |}) as Hrec
    by (vm_compute; reflexivity).
  apply (proj1 (proj2 (proj2 (get_user_availability_table example_engine "carol")
                         _ Hrec))).
  left. reflexivity.
Defined.

(** Claim C8 as stated fails: a stored tag outside the table is reported as
    it is, not as "unknown". *)
Lemma availability_reports_the_stored_tag :
  statuses napping_engine !! "frank"
  = Some {| manualStatus := Some "napping"; lastUpdated := Some "2025-01-10T17:00:00" |} ∧
  get_user_availability napping_engine "frank"
  = {| status := "napping"; social_preference := "neutral";
       study_preference := "neutral" |} ∧
  status (get_user_availability napping_engine "frank") ≠ "unknown".
Proof. split_and!; [vm_compute; reflexivity..|vm_compute; discriminate]. Qed.

(** ** Removing a schedule entry *)

(** Claim C7.  [remove_schedule] raises "Schedule not found" when the id is
    not in the store and "Not authorized to remove this schedule" when the
    entry belongs to another user; in both cases the service is left as it
    was.  When the requester owns the entry the call succeeds, the entry is
    gone from the schedule map, every other entry and every other user's id
    list is untouched, the users are untouched, and the requester's id list
    loses exactly that id. *)
Theorem remove_schedule_errors_leave_the_store
    (self : ScheduleService) (schedule_id user_id : string) :
  (schedules self !! schedule_id = None →
     remove_schedule self schedule_id user_id
     = (Raise (ValueError "Schedule not found"), self)) ∧
  (∀ schedule, schedules self !! schedule_id = Some schedule →
     Schedule.user_id schedule ≠ user_id →
     remove_schedule self schedule_id user_id
     = (Raise (ValueError "Not authorized to remove this schedule"), self)) ∧
  (∀ schedule, schedules self !! schedule_id = Some schedule →
     Schedule.user_id schedule = user_id →
     ∃ self', remove_schedule self schedule_id user_id = (Ok tt, self') ∧
       users self' = users self ∧
       schedules self' !! schedule_id = None ∧
       (∀ sid, sid ≠ schedule_id → schedules self' !! sid = schedules self !! sid) ∧
       (∀ uid, uid ≠ user_id → user_schedules self' !! uid = user_schedules self !! uid) ∧
       (∀ sid, sid ∈ default [] (user_schedules self' !! user_id) ↔
               sid ∈ default [] (user_schedules self !! user_id) ∧ sid ≠ schedule_id)).
Proof.
  unfold remove_schedule. split_and!.
  - by intros ->.
  - intros schedule -> Hne.
    by rewrite (proj2 (String.eqb_neq _ _) Hne).
  - intros schedule -> <-. rewrite String.eqb_refl.
    eexists. split; [done|]. cbn. split_and!.
    + done.
    + apply lookup_delete_eq.
    + intros sid Hsid. by apply lookup_delete_ne.
    + intros uid Huid. by apply lookup_insert_ne.
    + intros sid. rewrite lookup_insert_eq. cbn.
      rewrite !list_elem_of_In, filter_In, negb_true_iff, String.eqb_neq.
      done.
Qed.

Lemma remove_schedule_errors_leave_the_store_witness :
  remove_schedule example_schedule_service "s1" "bob"
  = (Raise (ValueError "Not authorized to remove this schedule"),
     example_schedule_service) ∧
  remove_schedule example_schedule_service "s9" "bob"
  = (Raise (ValueError "Schedule not found"), example_schedule_service) ∧
  ∃ self', remove_schedule example_schedule_service "s1" "alice" = (Ok tt, self').
Proof.
  destruct (remove_schedule_errors_leave_the_store example_schedule_service "s1" "bob")
    as (_ & Hauth & _).
  destruct (remove_schedule_errors_leave_the_store example_schedule_service "s9" "bob")
    as (Hmissing & _ & _).
  destruct (remove_schedule_errors_leave_the_store example_schedule_service "s1" "alice")
    as (_ & _ & Hok).
  assert (schedules example_schedule_service !! "s1"
          = Some (Schedule.mk "s1" "alice" "CS 15-122" "Principles of Imperative Computation"
                    MONDAY "09:00" "10:20" (Some "GHC 4401"))) as Hs1
    by (vm_compute; reflexivity).
  split_and!.
  - apply (Hauth _ Hs1). discriminate.
  - apply Hmissing. vm_compute. reflexivity.
  - destruct (Hok _ Hs1 eq_refl) as (self' & H & _). by exists self'.
Defined.

(** ** Sorting by decreasing key *)

Section sort_reverse.
Context {A : Type} (key : A → Z).

Lemma insert_desc_Permutation x l : Permutation (insert_desc key x l) (x :: l).
Proof.
  induction l as [|y l IH]; cbn; [done|].
  destruct (key x <? key y)%Z; [|done].
  rewrite IH. apply perm_swap.
Qed.

Lemma sort_reverse_Permutation l : Permutation (sort_reverse key l) l.
Proof.
  induction l as [|x l IH]; cbn; [done|].
  by rewrite insert_desc_Permutation, IH.
Qed.

Lemma insert_desc_sorted x l :
  StronglySorted (fun a b => (key b ≤ key a)%Z) l →
  StronglySorted (fun a b => (key b ≤ key a)%Z) (insert_desc key x l).
Proof.
  induction 1 as [|y l Hl IH Hy]; cbn.
  - repeat constructor.
  - destruct (key x <? key y)%Z eqn:E.
    + apply Z.ltb_lt in E. constructor; [done|].
      rewrite Forall_forall. intros z Hz.
      rewrite insert_desc_Permutation in Hz.
      apply elem_of_cons in Hz as [-> | Hz]; [lia|].
      rewrite Forall_forall in Hy. by apply Hy.
    + apply Z.ltb_ge in E. constructor; [by constructor|].
      constructor; [done|]. eapply Forall_impl; [exact Hy|]. cbn. intros z Hz. lia.
Qed.

Lemma sort_reverse_sorted l :
  StronglySorted (fun a b => (key b ≤ key a)%Z) (sort_reverse key l).
Proof.
  induction l as [|x l IH]; cbn; [constructor|]. by apply insert_desc_sorted.
Qed.

(** Stability: among the elements of one key the order is untouched. *)
Lemma insert_desc_stable k x l :
  List.filter (fun a => (key a =? k)%Z) (insert_desc key x l)
  = List.filter (fun a => (key a =? k)%Z) (x :: l).
Proof.
  induction l as [|y l IH]; [done|].
  cbn [insert_desc]. destruct (key x <? key y)%Z eqn:E; [|done].
  apply Z.ltb_lt in E. cbn [List.filter] in *. rewrite IH.
  destruct (key x =? k)%Z eqn:Ex, (key y =? k)%Z eqn:Ey; try done.
  apply Z.eqb_eq in Ex, Ey. lia.
Qed.

Lemma sort_reverse_stable k l :
  List.filter (fun a => (key a =? k)%Z) (sort_reverse key l)
  = List.filter (fun a => (key a =? k)%Z) l.
Proof.
  induction l as [|x l IH]; [done|].
  cbn [sort_reverse]. rewrite insert_desc_stable. cbn [List.filter]. by rewrite IH.
Qed.

Lemma StronglySorted_take (R : A → A → Prop) n l :
  StronglySorted R l → StronglySorted R (take n l).
Proof.
  intros H. revert n. induction H as [|x l Hl IH Hx]; intros [|n]; cbn; try constructor.
  - apply IH.
  - rewrite Forall_forall in *. intros y Hy. apply Hx.
    apply list_elem_of_lookup in Hy as [i Hi]. apply list_elem_of_lookup.
    exists i. by apply lookup_take_Some in Hi as [? ?].
Qed.

Lemma filter_take_prefix (P : A → bool) n l :
  List.filter P (take n l) `prefix_of` List.filter P l.
Proof.
  revert n. induction l as [|x l IH]; intros [|n]; cbn; try apply prefix_nil.
  destruct (P x); [apply prefix_cons|]; apply IH.
Qed.

End sort_reverse.

(** ** The recommendation loop *)

Lemma recommend_loop_spec schedule_service status_service clock user_id user
    user_courses items tick recommendations out :
  recommend_loop schedule_service status_service clock user_id user user_courses
    items tick recommendations = Ok out →
  ∃ partners,
    out = (recommendations ++ partners)%list ∧
    Forall2 (partner_of_item schedule_service status_service user user_courses)
      partners
      (List.filter (is_candidate schedule_service user_id user_courses) items).
Proof.
  revert tick recommendations.
  induction items as [|[other_user_id other_user] rest IH]; intros tick recs.
  - intros [= <-]. exists []. split; [by rewrite app_nil_r|constructor].
  - cbn [recommend_loop List.filter]. unfold is_candidate at 1. cbn [fst].
    destruct (String.eqb other_user_id user_id); [apply IH|]. cbn [negb andb].
    fold (shared_with schedule_service user_courses other_user_id).
    destruct (elements (shared_with schedule_service user_courses other_user_id))
      as [|c cs] eqn:Hshared.
    + apply elements_empty_inv in Hshared. apply leibniz_equiv in Hshared.
      rewrite bool_decide_eq_false_2 by (by intros []). apply IH.
    + rewrite bool_decide_eq_true_2; last first.
      { intros E. rewrite E, elements_empty in Hshared. done. }
      rewrite DayType_of_value_now. cbn [mbind result_bind].
      destruct (if negb _ then _ else _) as [next_class|e]; [|done].
      cbn [mbind result_bind]. intros H.
      apply IH in H as (partners & -> & Hall).
      eexists (_ :: partners). split; [by rewrite <- app_assoc|].
      constructor; [|done]. unfold partner_of_item. cbn. rewrite Hshared. done.
Qed.

Lemma get_recommendations_run schedule_service status_service clock user_id l :
  get_recommendations schedule_service status_service clock user_id = Ok l →
  (get_user schedule_service user_id = None ∧ l = []) ∨
  ∃ user recommendations,
    get_user schedule_service user_id = Some user ∧
    Forall2 (partner_of_item schedule_service status_service user
               (course_set (get_user_schedules schedule_service user_id)))
      recommendations
      (List.filter (is_candidate schedule_service user_id
                 (course_set (get_user_schedules schedule_service user_id)))
              (users schedule_service)) ∧
    l = take 5 (sort_reverse StudyPartner.score recommendations).
Proof.
  unfold get_recommendations.
  destruct (get_user schedule_service user_id) as [user|]; [|intros [= <-]; by left].
  destruct (recommend_loop _ _ _ _ _ _ _ _ _) as [recs|e] eqn:Hloop; [|done].
  cbn [mbind result_bind]. intros [= <-]. right.
  apply recommend_loop_spec in Hloop as (partners & -> & Hall).
  exists user, partners. done.
Qed.

Lemma partner_in_run schedule_service status_service clock user_id l p :
  get_recommendations schedule_service status_service clock user_id = Ok l →
  p ∈ l →
  ∃ user item,
    get_user schedule_service user_id = Some user ∧
    item ∈ users schedule_service ∧
    is_candidate schedule_service user_id
      (course_set (get_user_schedules schedule_service user_id)) item = true ∧
    partner_of_item schedule_service status_service user
      (course_set (get_user_schedules schedule_service user_id)) p item.
Proof.
  intros [[_ ->] | (user & recs & Huser & Hall & ->)]%get_recommendations_run Hp.
  - by apply elem_of_nil in Hp.
  - apply list_elem_of_lookup in Hp as [i Hi].
    apply lookup_take_Some in Hi as [Hi _].
    apply list_elem_of_lookup_2 in Hi. rewrite sort_reverse_Permutation in Hi.
    apply list_elem_of_lookup in Hi as [j Hj].
    destruct (Forall2_lookup_l _ _ _ _ _ Hall Hj) as (item & Hitem & Hpi).
    apply list_elem_of_lookup_2 in Hitem.
    apply list_elem_of_In, filter_In in Hitem as [Hin Hc].
    exists user, item. split_and!; try done. by apply list_elem_of_In.
Qed.

Lemma is_candidate_true schedule_service user_id user_courses item :
  is_candidate schedule_service user_id user_courses item = true ↔
  item.1 ≠ user_id ∧ shared_with schedule_service user_courses item.1 ≠ ∅.
Proof.
  unfold is_candidate.
  by rewrite andb_true_iff, negb_true_iff, String.eqb_neq, bool_decide_eq_true.
Qed.

Lemma status_bonus_decide (s : StatusType) :
  bool_decide (s ∈ [STUDYING; HELP; FREE])
  = bool_decide (s = STUDYING ∨ s = HELP ∨ s = FREE).
Proof. destruct s; vm_compute; reflexivity. Qed.

Lemma score_of_formula user other_user other_status (shared : gset string) :
  score_of user other_user other_status (elements shared)
  = (20 * Z.of_nat (size shared)
     + (if bool_decide (User.major user = User.major other_user) then 15 else 0)
     + (if bool_decide (other_status = STUDYING ∨ other_status = HELP
                        ∨ other_status = FREE) then 10 else 0))%Z.
Proof.
  unfold score_of. change (length (elements shared)) with (size shared).
  rewrite status_bonus_decide.
  destruct (String.eqb_spec (User.major user) (User.major other_user)) as [E|E].
  - rewrite (bool_decide_eq_true_2 _ E). case_bool_decide; lia.
  - rewrite (bool_decide_eq_false_2 _ E). case_bool_decide; lia.
Qed.

Lemma candidate_in_run schedule_service status_service clock user_id l user item :
  get_recommendations schedule_service status_service clock user_id = Ok l →
  get_user schedule_service user_id = Some user →
  item ∈ users schedule_service →
  is_candidate schedule_service user_id
    (course_set (get_user_schedules schedule_service user_id)) item = true →
  ∃ recommendations p,
    l = take 5 (sort_reverse StudyPartner.score recommendations) ∧
    p ∈ recommendations ∧
    partner_of_item schedule_service status_service user
      (course_set (get_user_schedules schedule_service user_id)) p item.
Proof.
  intros [[E _] | (user' & recs & Huser & Hall & ->)]%get_recommendations_run Hu Hin Hc;
    [congruence|].
  assert (user' = user) as -> by congruence.
  assert (item ∈ List.filter (is_candidate schedule_service user_id
            (course_set (get_user_schedules schedule_service user_id)))
            (users schedule_service)) as Hf.
  { apply list_elem_of_In, filter_In. split; [by apply list_elem_of_In|done]. }
  apply list_elem_of_lookup in Hf as [i Hi].
  destruct (Forall2_lookup_r _ _ _ _ _ Hall Hi) as (p & Hp & Hpi).
  exists recs, p. split_and!; try done. by apply list_elem_of_lookup_2 in Hp.
Qed.

(** Claim C1.  Whenever the recommendations are returned, the score of every
    record is 20 times the number of distinct course codes the candidate
    shares with the requester, plus 15 exactly when the two major strings are
    equal, plus 10 exactly when the status stored for the candidate in the
    status store is studying, help or free, a candidate without a record
    there counting as free; the same holds for every candidate with a
    non-empty shared set in the list before it is cut to five.
    [get_user_status] is that reading of the store.  Two shared courses,
    equal majors and status free give 65. *)
Theorem recommendation_score_is_exact
    (schedule_service : ScheduleService) (status_service : StatusService)
    (clock : nat → datetime) (user_id : string) (l : list StudyPartner.t) :
  get_recommendations schedule_service status_service clock user_id = Ok l →
  let user_courses := course_set (get_user_schedules schedule_service user_id) in
  let shared_of other_user_id :=
    user_courses ∩ course_set (get_user_schedules schedule_service other_user_id) in
  let stored_status other_user_id :=
    match user_statuses status_service !! other_user_id with
    | Some status => UserStatus.manual_status status
    | None => FREE
    end in
  let score_for (user other_user : User.t) other_user_id :=
    (20 * Z.of_nat (size (shared_of other_user_id))
     + (if bool_decide (User.major user = User.major other_user) then 15 else 0)
     + (if bool_decide (stored_status other_user_id = STUDYING
                        ∨ stored_status other_user_id = HELP
                        ∨ stored_status other_user_id = FREE)
        then 10 else 0))%Z in
  (∀ p, p ∈ l →
     ∃ user other_user_id other_user,
       get_user schedule_service user_id = Some user ∧
       (other_user_id, other_user) ∈ users schedule_service ∧
       other_user_id ≠ user_id ∧
       shared_of other_user_id ≠ ∅ ∧
       StudyPartner.id p = User.id other_user ∧
       StudyPartner.score p = score_for user other_user other_user_id) ∧
  (∀ user other_user_id other_user,
     get_user schedule_service user_id = Some user →
     (other_user_id, other_user) ∈ users schedule_service →
     other_user_id ≠ user_id →
     shared_of other_user_id ≠ ∅ →
     ∃ recommendations p,
       l = take 5 (sort_reverse StudyPartner.score recommendations) ∧
       p ∈ recommendations ∧
       StudyPartner.id p = User.id other_user ∧
       StudyPartner.score p = score_for user other_user other_user_id) ∧
  (∀ other_user_id,
     get_user_status status_service other_user_id = stored_status other_user_id) ∧
  (∀ other_user_id,
     user_statuses status_service !! other_user_id = None →
     get_user_status status_service other_user_id = FREE) ∧
  (∀ user other_user_id other_user,
     size (shared_of other_user_id) = 2%nat →
     User.major user = User.major other_user →
     stored_status other_user_id = FREE →
     score_for user other_user other_user_id = 65%Z).
Proof.
  intros Hrun user_courses shared_of stored_status score_for.
  assert (∀ oid, get_user_status status_service oid = stored_status oid) as Hst
    by reflexivity.
  split_and!.
  - intros p Hp.
    destruct (partner_in_run _ _ _ _ _ _ Hrun Hp)
      as (user & [oid ou] & Huser & Hin & [Hne Hsh]%is_candidate_true & Hpi).
    destruct Hpi as (Hid & _ & _ & _ & _ & Hscore & _). cbn [fst snd] in *.
    exists user, oid, ou. split_and!; try done.
    rewrite Hscore, Hst. apply score_of_formula.
  - intros user oid ou Huser Hin Hne Hsh.
    destruct (candidate_in_run _ _ _ _ _ user (oid, ou) Hrun Huser Hin)
      as (recs & p & -> & Hp & Hpi); [by apply is_candidate_true|].
    destruct Hpi as (Hid & _ & _ & _ & _ & Hscore & _). cbn [fst snd] in *.
    exists recs, p. split_and!; try done.
    rewrite Hscore, Hst. apply score_of_formula.
  - exact Hst.
  - intros oid Hnone. unfold get_user_status. by rewrite Hnone.
  - intros user oid ou Hsize Hmajor Hfree. subst score_for. cbn beta.
    rewrite Hsize, Hfree, (bool_decide_eq_true_2 _ Hmajor).
    rewrite bool_decide_eq_true_2 by auto. done.
Qed.

Lemma example_recommendations :
  get_recommendations example_schedule_service example_status_service
    (fun _ => monday_0930) "alice"
  = Ok [ StudyPartner.mk "bob" "Bob Smith" "CS" None 65 ["CS 15-122"; "MATH 21-127"]
           (Some "CS 15-122") None "Shares 2 classes with you; Same major (CS)";
         StudyPartner.mk "carol" "Carol Johnson" "MATH" None 20 ["MATH 21-127"]
           None None "Shares 1 class with you" ].
Proof. vm_compute. reflexivity. Qed.

Lemma helping_recommendations :
  get_recommendations example_schedule_service helping_status_service
    (fun _ => monday_0930) "alice"
  = Ok [ StudyPartner.mk "bob" "Bob Smith" "CS" None 65 ["CS 15-122"; "MATH 21-127"]
           (Some "CS 15-122") None
           "Shares 2 classes with you; Same major (CS); Available to help";
         StudyPartner.mk "carol" "Carol Johnson" "MATH" None 30 ["MATH 21-127"]
           None None "Shares 1 class with you; Currently studying" ].
Proof. vm_compute. reflexivity. Qed.

Lemma recommendation_score_is_exact_witness :
  (∃ l,
     get_recommendations example_schedule_service example_status_service
       (fun _ => monday_0930) "alice" = Ok l ∧
     user_statuses example_status_service !! "bob" = None ∧
     (UserStatus.manual_status <$> user_statuses example_status_service !! "carol")
       = Some SOCIAL ∧
     (∃ recommendations p,
        l = take 5 (sort_reverse StudyPartner.score recommendations) ∧
        p ∈ recommendations ∧
        StudyPartner.id p = "bob" ∧ StudyPartner.score p = 65%Z) ∧
     (∃ recommendations p,
        l = take 5 (sort_reverse StudyPartner.score recommendations) ∧
        p ∈ recommendations ∧
        StudyPartner.id p = "carol" ∧ StudyPartner.score p = 20%Z)) ∧
  (∃ l,
     get_recommendations example_schedule_service helping_status_service
       (fun _ => monday_0930) "alice" = Ok l ∧
     (UserStatus.manual_status <$> user_statuses helping_status_service !! "carol")
       = Some STUDYING ∧
     (∃ recommendations p,
        l = take 5 (sort_reverse StudyPartner.score recommendations) ∧
        p ∈ recommendations ∧
        StudyPartner.id p = "carol" ∧ StudyPartner.score p = 30%Z)).
Proof.
  pose (alice := User.mk "alice" "Alice Chen" "CS" None).
  pose (bob := User.mk "bob" "Bob Smith" "CS" None).
  pose (carol := User.mk "carol" "Carol Johnson" "MATH" None).
  assert (get_user example_schedule_service "alice" = Some alice) as Halice
    by (vm_compute; reflexivity).
  assert (("bob", bob) ∈ users example_schedule_service) as Hbob
    by (vm_compute; right; left).
  assert (("carol", carol) ∈ users example_schedule_service) as Hcarol
    by (vm_compute; right; right; left).
  assert (∀ oid, oid = "bob" ∨ oid = "carol" →
            course_set (get_user_schedules example_schedule_service "alice")
            ∩ course_set (get_user_schedules example_schedule_service oid) ≠ ∅)
    as Hshared.
  { intros oid [-> | ->] E; apply (f_equal size) in E; vm_compute in E;
      discriminate. }
  split.
  - eexists. split; [exact example_recommendations|].
    split; [vm_compute; reflexivity|]. split; [vm_compute; reflexivity|].
    pose proof (recommendation_score_is_exact _ _ _ _ _ example_recommendations)
      as (_ & Hall & _).
    split.
    + destruct (Hall alice "bob" bob Halice Hbob ltac:(discriminate)
                  (Hshared "bob" ltac:(by left)))
        as (recs & p & Hl & Hp & Hid & Hscore).
      exists recs, p. split_and!; [exact Hl|exact Hp|exact Hid|].
      rewrite Hscore. vm_compute. reflexivity.
    + destruct (Hall alice "carol" carol Halice Hcarol ltac:(discriminate)
                  (Hshared "carol" ltac:(by right)))
        as (recs & p & Hl & Hp & Hid & Hscore).
      exists recs, p. split_and!; [exact Hl|exact Hp|exact Hid|].
      rewrite Hscore. vm_compute. reflexivity.
  - eexists. split; [exact helping_recommendations|].
    split; [vm_compute; reflexivity|].
    pose proof (recommendation_score_is_exact _ _ _ _ _ helping_recommendations)
      as (_ & Hall & _).
    destruct (Hall alice "carol" carol Halice Hcarol ltac:(discriminate)
                (Hshared "carol" ltac:(by right)))
      as (recs & p & Hl & Hp & Hid & Hscore).
    exists recs, p. split_and!; [exact Hl|exact Hp|exact Hid|].
    rewrite Hscore. vm_compute. reflexivity.
Defined.

Lemma str_app_assoc (a b c : string) : (a ++ b) ++ c = a ++ (b ++ c).
Proof.
  induction a as [|x a IH]; [done|].
  change (String x ((a ++ b) ++ c) = String x (a ++ (b ++ c))). by f_equal.
Qed.

Lemma str_app_nil_r (a : string) : a ++ "" = a.
Proof.
  induction a as [|x a IH]; [done|].
  change (String x (a ++ "") = String x a). by f_equal.
Qed.

Lemma reason_of_text user other_user other_status (shared : gset string) :
  reason_of user other_user other_status (elements shared)
  = "Shares " ++ nat_to_str (size shared)
    ++ (if (size shared =? 1)%nat then " class" else
        if (1 <? size shared)%nat then " classes" else " class")
    ++ " with you"
    ++ (if bool_decide (User.major user = User.major other_user)
        then "; Same major (" ++ User.major user ++ ")" else "")
    ++ (if bool_decide (other_status = HELP) then "; Available to help"
        else if bool_decide (other_status = STUDYING) then "; Currently studying"
        else "").
Proof.
  unfold reason_of. change (length (elements shared)) with (size shared).
  set (n := size shared).
  assert ((if (n =? 1)%nat then " class" else
           if (1 <? n)%nat then " classes" else " class")
          = " class" ++ (if (1 <? n)%nat then "es" else "")) as ->.
  { destruct (n =? 1)%nat eqn:E1; [apply Nat.eqb_eq in E1 as ->; done|].
    by destruct (1 <? n)%nat. }
  destruct (String.eqb_spec (User.major user) (User.major other_user)) as [E|E];
    [rewrite (bool_decide_eq_true_2 _ E)|rewrite (bool_decide_eq_false_2 _ E)];
    repeat case_bool_decide; rewrite ?str_app_assoc, ?str_app_nil_r; reflexivity.
Qed.

Lemma shared_size_pos (shared : gset string) : shared ≠ ∅ → (1 ≤ size shared)%nat.
Proof.
  intros H. destruct (size shared) eqn:E; [|lia].
  apply size_empty_inv in E. apply leibniz_equiv in E. done.
Qed.

(** Claim C9.  Whenever the recommendations are returned, the reason of every
    record (and of every candidate before the list is cut to five) is, with N
    the number of shared courses (N >= 1): "Shares N class with you" when
    N = 1 and "Shares N classes with you" otherwise, followed by
    "; Same major (<major>)" exactly when the majors are equal, followed by
    "; Available to help" when the status stored for the candidate in the
    status store is help, else by "; Currently studying" when it is studying,
    never both; a candidate without a record there counts as free.
    [get_user_status] is that reading of the store. *)
Theorem recommendation_reason_text
    (schedule_service : ScheduleService) (status_service : StatusService)
    (clock : nat → datetime) (user_id : string) (l : list StudyPartner.t) :
  get_recommendations schedule_service status_service clock user_id = Ok l →
  let user_courses := course_set (get_user_schedules schedule_service user_id) in
  let shared_of other_user_id :=
    user_courses ∩ course_set (get_user_schedules schedule_service other_user_id) in
  let stored_status other_user_id :=
    match user_statuses status_service !! other_user_id with
    | Some status => UserStatus.manual_status status
    | None => FREE
    end in
  let reason_for (user other_user : User.t) other_user_id :=
    let N := size (shared_of other_user_id) in
    let status := stored_status other_user_id in
    "Shares " ++ nat_to_str N
    ++ (if (N =? 1)%nat then " class" else " classes") ++ " with you"
    ++ (if bool_decide (User.major user = User.major other_user)
        then "; Same major (" ++ User.major user ++ ")" else "")
    ++ (if bool_decide (status = HELP) then "; Available to help"
        else if bool_decide (status = STUDYING) then "; Currently studying"
        else "") in
  (∀ p, p ∈ l →
     ∃ user other_user_id other_user,
       get_user schedule_service user_id = Some user ∧
       (other_user_id, other_user) ∈ users schedule_service ∧
       other_user_id ≠ user_id ∧
       (1 ≤ size (shared_of other_user_id))%nat ∧
       StudyPartner.id p = User.id other_user ∧
       StudyPartner.reason p = reason_for user other_user other_user_id) ∧
  (∀ user other_user_id other_user,
     get_user schedule_service user_id = Some user →
     (other_user_id, other_user) ∈ users schedule_service →
     other_user_id ≠ user_id →
     shared_of other_user_id ≠ ∅ →
     ∃ recommendations p,
       l = take 5 (sort_reverse StudyPartner.score recommendations) ∧
       p ∈ recommendations ∧
       StudyPartner.id p = User.id other_user ∧
       StudyPartner.reason p = reason_for user other_user other_user_id) ∧
  (∀ other_user_id,
     get_user_status status_service other_user_id = stored_status other_user_id).
Proof.
  intros Hrun user_courses shared_of stored_status reason_for.
  assert (∀ oid, get_user_status status_service oid = stored_status oid) as Hst
    by reflexivity.
  assert (∀ user ou oid, shared_of oid ≠ ∅ →
            reason_of user ou (get_user_status status_service oid)
              (elements (shared_of oid)) = reason_for user ou oid) as Htext.
  { intros user ou oid Hsh. rewrite reason_of_text, Hst. subst reason_for. cbn beta zeta.
    apply shared_size_pos in Hsh.
    destruct (size (shared_of oid) =? 1)%nat eqn:E1; [done|].
    apply Nat.eqb_neq in E1. by rewrite (proj2 (Nat.ltb_lt _ _)) by lia. }
  split_and!.
  - intros p Hp.
    destruct (partner_in_run _ _ _ _ _ _ Hrun Hp)
      as (user & [oid ou] & Huser & Hin & [Hne Hsh]%is_candidate_true & Hpi).
    destruct Hpi as (Hid & _ & _ & _ & _ & _ & Hreason). cbn [fst snd] in *.
    exists user, oid, ou. split_and!; try done; [by apply shared_size_pos|].
    rewrite Hreason. by apply Htext.
  - intros user oid ou Huser Hin Hne Hsh.
    destruct (candidate_in_run _ _ _ _ _ user (oid, ou) Hrun Huser Hin)
      as (recs & p & -> & Hp & Hpi); [by apply is_candidate_true|].
    destruct Hpi as (Hid & _ & _ & _ & _ & _ & Hreason). cbn [fst snd] in *.
    exists recs, p. split_and!; try done.
    rewrite Hreason. by apply Htext.
  - exact Hst.
Qed.

Lemma recommendation_reason_text_witness :
  (∃ l,
     get_recommendations example_schedule_service helping_status_service
       (fun _ => monday_0930) "alice" = Ok l ∧
     (UserStatus.manual_status <$> user_statuses helping_status_service !! "bob")
       = Some HELP ∧
     (UserStatus.manual_status <$> user_statuses helping_status_service !! "carol")
       = Some STUDYING ∧
     (∃ recommendations p,
        l = take 5 (sort_reverse StudyPartner.score recommendations) ∧
        p ∈ recommendations ∧ StudyPartner.id p = "bob" ∧
        StudyPartner.reason p
        = "Shares 2 classes with you; Same major (CS); Available to help") ∧
     (∃ recommendations p,
        l = take 5 (sort_reverse StudyPartner.score recommendations) ∧
        p ∈ recommendations ∧ StudyPartner.id p = "carol" ∧
        StudyPartner.reason p = "Shares 1 class with you; Currently studying")) ∧
  (∃ l,
     get_recommendations example_schedule_service example_status_service
       (fun _ => monday_0930) "alice" = Ok l ∧
     (UserStatus.manual_status <$> user_statuses example_status_service !! "carol")
       = Some SOCIAL ∧
     (∃ recommendations p,
        l = take 5 (sort_reverse StudyPartner.score recommendations) ∧
        p ∈ recommendations ∧ StudyPartner.id p = "carol" ∧
        StudyPartner.reason p = "Shares 1 class with you")).
Proof.
  pose (alice := User.mk "alice" "Alice Chen" "CS" None).
  pose (bob := User.mk "bob" "Bob Smith" "CS" None).
  pose (carol := User.mk "carol" "Carol Johnson" "MATH" None).
  assert (get_user example_schedule_service "alice" = Some alice) as Halice
    by (vm_compute; reflexivity).
  assert (("bob", bob) ∈ users example_schedule_service) as Hbob
    by (vm_compute; right; left).
  assert (("carol", carol) ∈ users example_schedule_service) as Hcarol
    by (vm_compute; right; right; left).
  assert (∀ oid, oid = "bob" ∨ oid = "carol" →
            course_set (get_user_schedules example_schedule_service "alice")
            ∩ course_set (get_user_schedules example_schedule_service oid) ≠ ∅)
    as Hshared.
  { intros oid [-> | ->] E; apply (f_equal size) in E; vm_compute in E;
      discriminate. }
  split.
  - eexists. split; [exact helping_recommendations|].
    split; [vm_compute; reflexivity|]. split; [vm_compute; reflexivity|].
    pose proof (recommendation_reason_text _ _ _ _ _ helping_recommendations)
      as (_ & Hall & _).
    split.
    + destruct (Hall alice "bob" bob Halice Hbob ltac:(discriminate)
                  (Hshared "bob" ltac:(by left)))
        as (recs & p & Hl & Hp & Hid & Hreason).
      exists recs, p. split_and!; [exact Hl|exact Hp|exact Hid|].
      rewrite Hreason. vm_compute. reflexivity.
    + destruct (Hall alice "carol" carol Halice Hcarol ltac:(discriminate)
                  (Hshared "carol" ltac:(by right)))
        as (recs & p & Hl & Hp & Hid & Hreason).
      exists recs, p. split_and!; [exact Hl|exact Hp|exact Hid|].
      rewrite Hreason. vm_compute. reflexivity.
  - eexists. split; [exact example_recommendations|].
    split; [vm_compute; reflexivity|].
    pose proof (recommendation_reason_text _ _ _ _ _ example_recommendations)
      as (_ & Hall & _).
    destruct (Hall alice "carol" carol Halice Hcarol ltac:(discriminate)
                (Hshared "carol" ltac:(by right)))
      as (recs & p & Hl & Hp & Hid & Hreason).
    exists recs, p. split_and!; [exact Hl|exact Hp|exact Hid|].
    rewrite Hreason. vm_compute. reflexivity.
Defined.

(** Claim C2.  The recommendations are the empty list when the requesting id
    is not in the user store.  A returned list has at most 5 records and is
    sorted by decreasing score; each record comes from an entry of the user
    store other than the requester's whose shared-course set is not empty;
    in a store whose keys are the users' ids no record carries the
    requester's id.  The list is the first five of a stable ranking of the
    candidates taken in the iteration order of the user store: records of
    equal score keep that order. *)
Theorem recommendation_list_shape
    (schedule_service : ScheduleService) (status_service : StatusService)
    (clock : nat → datetime) (user_id : string) :
  let user_courses := course_set (get_user_schedules schedule_service user_id) in
  (get_user schedule_service user_id = None →
     get_recommendations schedule_service status_service clock user_id = Ok []) ∧
  (∀ l, get_recommendations schedule_service status_service clock user_id = Ok l →
     (length l ≤ 5)%nat ∧
     StronglySorted (fun a b => (StudyPartner.score b ≤ StudyPartner.score a)%Z) l ∧
     (∀ p, p ∈ l →
        ∃ other_user_id other_user,
          (other_user_id, other_user) ∈ users schedule_service ∧
          other_user_id ≠ user_id ∧
          StudyPartner.id p = User.id other_user ∧
          user_courses ∩ course_set (get_user_schedules schedule_service other_user_id) ≠ ∅ ∧
          StudyPartner.shared_classes p ≠ []) ∧
     (users_keyed_by_id schedule_service → ∀ p, p ∈ l → StudyPartner.id p ≠ user_id)) ∧
  (∀ l user,
     get_recommendations schedule_service status_service clock user_id = Ok l →
     get_user schedule_service user_id = Some user →
     ∃ recommendations ranked,
       Forall2 (fun p item => StudyPartner.id p = User.id item.2)
         recommendations
         (List.filter (is_candidate schedule_service user_id user_courses)
            (users schedule_service)) ∧
       Permutation ranked recommendations ∧
       StronglySorted (fun a b => (StudyPartner.score b ≤ StudyPartner.score a)%Z) ranked ∧
       (∀ k, List.filter (fun p => (StudyPartner.score p =? k)%Z) ranked
             = List.filter (fun p => (StudyPartner.score p =? k)%Z) recommendations) ∧
       l = take 5 ranked).
Proof.
  intros user_courses. split_and!.
  - intros Hnone. unfold get_recommendations. by rewrite Hnone.
  - intros l Hrun.
    assert (∀ p, p ∈ l →
        ∃ other_user_id other_user,
          (other_user_id, other_user) ∈ users schedule_service ∧
          other_user_id ≠ user_id ∧
          StudyPartner.id p = User.id other_user ∧
          user_courses ∩ course_set (get_user_schedules schedule_service other_user_id) ≠ ∅ ∧
          StudyPartner.shared_classes p ≠ []) as Hmembers.
    { intros p Hp.
      destruct (partner_in_run _ _ _ _ _ _ Hrun Hp)
        as (user & [oid ou] & Huser & Hin & [Hne Hsh]%is_candidate_true & Hpi).
      destruct Hpi as (Hid & _ & _ & _ & Hshared & _). cbn [fst snd] in *.
      exists oid, ou. split_and!; try done.
      rewrite Hshared. intros E. apply elements_empty_inv, leibniz_equiv in E. done. }
    split_and!; [| |done|].
    + destruct (get_recommendations_run _ _ _ _ _ Hrun)
        as [[_ ->] | (user & recs & Huser & Hall & ->)]; [cbn; lia|].
      rewrite length_take. lia.
    + destruct (get_recommendations_run _ _ _ _ _ Hrun)
        as [[_ ->] | (user & recs & Huser & Hall & ->)]; [constructor|].
      apply StronglySorted_take, sort_reverse_sorted.
    + intros Hkeys p Hp.
      destruct (Hmembers p Hp) as (oid & ou & Hin & Hne & Hid & _).
      rewrite Hid, (Hkeys _ _ Hin). done.
  - intros l user Hrun Huser.
    destruct (get_recommendations_run _ _ _ _ _ Hrun)
      as [[E _] | (user' & recs & _ & Hall & ->)]; [congruence|].
    exists recs, (sort_reverse StudyPartner.score recs). split_and!.
    + eapply Forall2_impl; [exact Hall|]. by intros p item (Hid & _).
    + apply sort_reverse_Permutation.
    + apply sort_reverse_sorted.
    + intros k. apply sort_reverse_stable.
    + done.
Qed.

Lemma example_users_keyed_by_id : users_keyed_by_id example_schedule_service.
Proof.
  intros k u Hin. vm_compute in Hin.
  repeat (apply elem_of_cons in Hin as [[= -> ->] | Hin]; [reflexivity|]).
  by apply elem_of_nil in Hin.
Qed.

Lemma recommendation_list_shape_witness :
  get_recommendations example_schedule_service example_status_service
    (fun _ => monday_0930) "zoe" = Ok [] ∧
  ∃ l, get_recommendations example_schedule_service example_status_service
         (fun _ => monday_0930) "alice" = Ok l ∧
       (length l ≤ 5)%nat ∧
       (∀ p, p ∈ l → StudyPartner.id p ≠ "alice").
Proof.
  split.
  - apply (proj1 (recommendation_list_shape example_schedule_service
                    example_status_service (fun _ => monday_0930) "zoe")).
    vm_compute. reflexivity.
  - eexists. split; [exact example_recommendations|].
    destruct (proj1 (proj2 (recommendation_list_shape example_schedule_service
                example_status_service (fun _ => monday_0930) "alice"))
                _ example_recommendations) as (Hlen & _ & _ & Hself).
    split; [exact Hlen|]. apply Hself. exact example_users_keyed_by_id.
Defined.

(** ** The status board *)

Lemma status_loop_spec self schedule_service current_day current_time
    items in_class free in_class' free' :
  status_loop self schedule_service current_day current_time items in_class free
  = Ok (in_class', free') →
  ∃ entries,
    Forall2 (board_entry_of self schedule_service current_day current_time) entries items ∧
    in_class' = (in_class ++ List.filter
                   (fun e => opt_str_truthy (StatusBoardUser.current_class e)) entries)%list ∧
    free' = (free ++ List.filter
               (fun e => negb (opt_str_truthy (StatusBoardUser.current_class e))) entries)%list.
Proof.
  revert in_class free.
  induction items as [|[user_id user] rest IH]; intros in_class free.
  - intros [= <- <-]. exists []. by rewrite !app_nil_r.
  - cbn [status_loop]. unfold status_user_of.
    destruct (next_class_today _ _ _) as [next_class|e]; [|done].
    cbn [mbind result_bind StatusBoardUser.current_class].
    set (entry := StatusBoardUser.mk _ _ _ _ _ _ _).
    destruct (opt_str_truthy _) eqn:Htruthy; intros H;
      apply IH in H as (entries & Hall & -> & ->);
      exists (entry :: entries); cbn [List.filter StatusBoardUser.current_class entry];
      rewrite Htruthy; cbn [negb]; rewrite <- ?app_assoc;
      (split_and!; [constructor; [by repeat split|done]|done..]).
Qed.

Lemma current_class_scan_truthy schedules current_day current_time :
  (∀ s, s ∈ schedules → Schedule.course_code s ≠ "") →
  opt_str_truthy (current_class_scan schedules current_day current_time) = true ↔
  ∃ s, s ∈ schedules ∧ holds_time current_day current_time s.
Proof.
  unfold holds_time.
  induction schedules as [|s rest IH]; intros Hcodes.
  - cbn. split; [done|]. by intros (s & ?%elem_of_nil & _).
  - cbn [current_class_scan].
    assert (∀ s, s ∈ rest → Schedule.course_code s ≠ "") as Hrest
      by (intros s' Hs'; apply Hcodes; by right).
    specialize (IH Hrest).
    case_bool_decide as Hday.
    + destruct (String.leb (Schedule.start_time s) current_time
                && String.leb current_time (Schedule.end_time s)) eqn:Hin.
      * apply andb_prop in Hin as [? ?]. cbn. split.
        -- intros _. exists s. split_and!; try done. by left.
        -- intros _. specialize (Hcodes s ltac:(left)).
           by destruct (Schedule.course_code s).
      * rewrite IH. split.
        -- intros (s' & Hs' & H). exists s'. split; [by right|done].
        -- intros (s' & [-> | Hs']%elem_of_cons & Hd & H1 & H2).
           ++ rewrite H1, H2 in Hin. done.
           ++ by exists s'.
    + rewrite IH. split.
      * intros (s' & Hs' & H). exists s'. split; [by right|done].
      * intros (s' & [-> | Hs']%elem_of_cons & Hd & H1 & H2); [done|by exists s'].
Qed.

(** Claim C3, at the input where the code departs from it.  Dana's only
    entry is on Monday from 09:00 to 10:20 and has an empty course code.  On
    Monday at 09:30 the entry holds the reference time, yet the board lists
    Dana under [free], with the empty string as current class, and lists
    nobody under [in_class]: the test [if current_class:] takes the empty
    course code for the absence of a class. *)
Theorem status_board_blank_course_code :
  get_user_schedules blank_code_service "dana" = [blank_code_entry] ∧
  holds_time (day_of monday_0930) (strftime_HM monday_0930) blank_code_entry ∧
  get_current_status {| user_statuses := ∅ |} blank_code_service monday_0930
  = Ok (CurrentStatusResponse.mk "2025-01-13T09:30:00"
          []
          [ StatusBoardUser.mk "dana" "Dana Lee" "CS" None "free" (Some "") None ]).
Proof. split_and!; [vm_compute; reflexivity|by vm_compute|vm_compute; reflexivity]. Qed.

(* ================================================================== *)
(** * Further properties of the code *)

(** ** The user store *)

Lemma dict_get_set_eq {V} k (v : V) d : dict_get k (dict_set k v d) = Some v.
Proof.
  unfold dict_get. induction d as [|[k' v'] d IH]; cbn.
  - by rewrite String.eqb_refl.
  - destruct (String.eqb k' k) eqn:E; cbn; rewrite E; [done|apply IH].
Qed.

Lemma dict_get_set_ne {V} k k' (v : V) d :
  k' ≠ k → dict_get k' (dict_set k v d) = dict_get k' d.
Proof.
  intros Hne. unfold dict_get. induction d as [|[k0 v0] d IH]; cbn.
  - by rewrite (proj2 (String.eqb_neq _ _)) by done.
  - destruct (String.eqb k0 k) eqn:E; cbn.
    + apply String.eqb_eq in E as ->.
      by rewrite (proj2 (String.eqb_neq _ _)) by done.
    + destruct (String.eqb k0 k'); [done|apply IH].
Qed.

Lemma dict_set_fresh {V} k (v : V) d :
  k ∉ map fst d → dict_set k v d = (d ++ [(k, v)])%list.
Proof.
  induction d as [|[k' v'] d IH]; cbn; [done|].
  intros Hk. apply not_elem_of_cons in Hk as [Hne Hk].
  rewrite (proj2 (String.eqb_neq _ _)) by done. by rewrite IH.
Qed.

Lemma dict_set_keys {V} k (v : V) d :
  map fst (dict_set k v d)
  = if bool_decide (k ∈ map fst d) then map fst d else (map fst d ++ [k])%list.
Proof.
  induction d as [|[k' v'] d IH]; cbn; [done|].
  destruct (String.eqb_spec k' k) as [->|Hne]; cbn.
  - by rewrite bool_decide_eq_true_2 by left.
  - rewrite IH. case_bool_decide as Hin.
    + by rewrite bool_decide_eq_true_2 by by right.
    + rewrite bool_decide_eq_false_2; [done|].
      intros [?|?]%elem_of_cons; [congruence|done].
Qed.

Lemma dict_set_elem_of {V} k (v : V) d k0 v0 :
  (k0, v0) ∈ dict_set k v d → (k0 = k ∧ v0 = v) ∨ (k0, v0) ∈ d.
Proof.
  induction d as [|[k' v'] d IH]; cbn.
  - intros [[= -> ->] | []%elem_of_nil]%elem_of_cons. by left.
  - destruct (String.eqb_spec k' k) as [->|Hne].
    + intros [[= -> ->] | Hin]%elem_of_cons; [by left|]. right. by right.
    + intros [[= -> ->] | Hin]%elem_of_cons; [right; by left|].
      destruct (IH Hin) as [?|?]; [by left|]. right. by right.
Qed.

(** [create_or_get_user] answers with a user of the given name and major and
    leaves the schedules alone.  Either that user was already stored and the
    service is unchanged, or no stored user has that name and major and a new
    user with the fresh id is stored: it is found under its id, every other
    id is found as before, and when the id was not a key yet the new user
    comes last in the iteration order. *)
Theorem create_or_get_user_returns_or_registers
    (self : ScheduleService) (username major uuid : string) :
  let user := (create_or_get_user self username major uuid).1 in
  let self' := (create_or_get_user self username major uuid).2 in
  User.username user = username ∧ User.major user = major ∧
  schedules self' = schedules self ∧ user_schedules self' = user_schedules self ∧
  ((∃ k, (k, user) ∈ users self) ∧ self' = self
   ∨ (∀ k u, (k, u) ∈ users self →
             ¬ (User.username u = username ∧ User.major u = major)) ∧
     user = User.mk uuid username major None ∧
     get_user self' uuid = Some user ∧
     (∀ k, k ≠ uuid → get_user self' k = get_user self k) ∧
     (uuid ∉ user_keys self → users self' = (users self ++ [(uuid, user)])%list)).
Proof.
  unfold create_or_get_user.
  destruct (find _ (map snd (users self))) as [user|] eqn:Hfind; cbn [fst snd].
  - apply find_some in Hfind as [Hin [->%String.eqb_eq ->%String.eqb_eq]%andb_prop].
    split_and!; try done. left. split; [|done].
    apply in_map_iff in Hin as ([k u] & <- & Hin). exists k. by apply list_elem_of_In.
  - split_and!; try done. right. split_and!; try done.
    + intros k u Hin [Hu Hm].
      assert (In u (map snd (users self))) as Hu'.
      { apply in_map_iff. exists (k, u). split; [done|by apply list_elem_of_In]. }
      pose proof (find_none _ _ Hfind u Hu') as Hno. cbn in Hno.
      rewrite Hu, Hm, !String.eqb_refl in Hno. done.
    + apply dict_get_set_eq.
    + intros k Hk. cbn. unfold get_user. cbn. by apply dict_get_set_ne.
    + intros Hfresh. cbn. by apply dict_set_fresh.
Qed.

(** Logging in twice with the same name and major gives the same user both
    times and registers nothing the second time, whatever fresh ids are
    drawn. *)
Theorem create_or_get_user_twice
    (self : ScheduleService) (username major uuid uuid' : string) :
  let first := create_or_get_user self username major uuid in
  create_or_get_user first.2 username major uuid' = first.
Proof.
  cbn zeta. unfold create_or_get_user at 2 3.
  destruct (find _ (map snd (users self))) as [user|] eqn:Hfind; cbn [fst snd].
  - unfold create_or_get_user. by rewrite Hfind.
  - unfold create_or_get_user. cbn [users User.id].
    set (P := fun user => String.eqb (User.username user) username
                          && String.eqb (User.major user) major).
    set (new := User.mk uuid username major None).
    assert (find P (map snd (dict_set uuid new (users self))) = Some new) as ->; [|done].
    assert (P new = true) as Hnew by (unfold P; cbn; by rewrite !String.eqb_refl).
    fold P in Hfind. revert Hfind. generalize (users self).
    induction l as [|[k u] l IH]; cbn.
    + intros _. by rewrite Hnew.
    + destruct (P u) eqn:Hu; [done|]. intros Hfind.
      destruct (String.eqb k uuid); cbn; [by rewrite Hnew|].
      rewrite Hu. by apply IH.
Qed.

(** [create_or_get_user] keeps the user store well keyed: if every key is the
    id of the user stored under it and no key occurs twice, the same holds
    afterwards. *)
Theorem create_or_get_user_keeps_the_keys
    (self : ScheduleService) (username major uuid : string) :
  users_keyed_by_id self → NoDup (user_keys self) →
  let self' := (create_or_get_user self username major uuid).2 in
  users_keyed_by_id self' ∧ NoDup (user_keys self').
Proof.
  intros Hkeys Hnodup. unfold create_or_get_user.
  destruct (find _ (map snd (users self))) as [user|] eqn:Hfind; cbn [fst snd]; [done|].
  split.
  - intros k u Hin. cbn in Hin.
    apply dict_set_elem_of in Hin as [[-> ->] | Hin]; [done|by apply Hkeys].
  - unfold user_keys in *. cbn. rewrite dict_set_keys. case_bool_decide; [done|].
    apply NoDup_app. split_and!; [done| |apply NoDup_singleton].
    intros k Hk ->%list_elem_of_singleton. done.
Qed.

Lemma create_or_get_user_keeps_the_keys_witness :
  users_keyed_by_id
    (create_or_get_user ScheduleService_init "Alice Chen" "CS" "alice").2 ∧
  NoDup (user_keys (create_or_get_user ScheduleService_init "Alice Chen" "CS" "alice").2).
Proof.
  apply (create_or_get_user_keeps_the_keys ScheduleService_init).
  - intros k u Hin. cbn in Hin. by apply elem_of_nil in Hin.
  - cbn. constructor.
Defined.

(** ** The schedule store *)

Lemma schedules_owned_init : schedules_owned ScheduleService_init.
Proof. intros uid sid Hin. cbn in Hin. rewrite lookup_empty in Hin. by apply elem_of_nil in Hin. Qed.

Lemma omap_lookup_ext (m m' : gmap string Schedule.t) (ids : list string) :
  (∀ sid, sid ∈ ids → m' !! sid = m !! sid) →
  omap (fun sid => m' !! sid) ids = omap (fun sid => m !! sid) ids.
Proof.
  induction ids as [|sid ids IH]; intros H; [done|]. cbn.
  rewrite (H sid) by left. rewrite IH; [done|]. intros s Hs. apply H. by right.
Qed.

Lemma add_schedule_owned (self : ScheduleService) (schedule : Schedule.t) :
  schedules_owned self →
  schedules self !! Schedule.id schedule = None →
  schedules_owned (add_schedule self schedule).
Proof.
  intros Hown Hfresh uid sid. unfold add_schedule. cbn.
  destruct (decide (uid = Schedule.user_id schedule)) as [->|Hne].
  - rewrite lookup_insert_eq. cbn. intros [Hin | ->%list_elem_of_singleton]%elem_of_app.
    + destruct (Hown _ _ Hin) as (s & Hs & Hu & Hi).
      exists s. split_and!; try done. rewrite lookup_insert_ne; [done|]. congruence.
    + exists schedule. by rewrite lookup_insert_eq.
  - rewrite lookup_insert_ne by done. intros Hin.
    destruct (Hown _ _ Hin) as (s & Hs & Hu & Hi).
    exists s. split_and!; try done. rewrite lookup_insert_ne; [done|]. congruence.
Qed.

Lemma get_user_schedules_add
    (self : ScheduleService) (schedule : Schedule.t) (uid : string) :
  schedules_owned self →
  schedules self !! Schedule.id schedule = None →
  get_user_schedules (add_schedule self schedule) uid
  = if bool_decide (uid = Schedule.user_id schedule)
    then (get_user_schedules self uid ++ [schedule])%list
    else get_user_schedules self uid.
Proof.
  intros Hown Hfresh. unfold get_user_schedules, add_schedule. cbn.
  assert (∀ sid, sid ∈ default [] (user_schedules self !! uid) →
            <[Schedule.id schedule:=schedule]> (schedules self) !! sid
            = schedules self !! sid) as Hold.
  { intros sid Hin. destruct (Hown _ _ Hin) as (s & Hs & _).
    rewrite lookup_insert_ne; [done|]. congruence. }
  case_bool_decide as Hu.
  - subst uid. rewrite lookup_insert_eq. cbn. rewrite omap_app. cbn.
    rewrite lookup_insert_eq. cbn. by rewrite (omap_lookup_ext _ _ _ Hold).
  - rewrite lookup_insert_ne by done. by apply omap_lookup_ext.
Qed.

Lemma get_user_schedules_belong (self : ScheduleService) (uid : string) :
  schedules_owned self →
  map Schedule.id (get_user_schedules self uid) = default [] (user_schedules self !! uid) ∧
  ∀ s, s ∈ get_user_schedules self uid →
       Schedule.user_id s = uid ∧ schedules self !! Schedule.id s = Some s.
Proof.
  intros Hown. unfold get_user_schedules.
  specialize (Hown uid). revert Hown.
  generalize (default [] (user_schedules self !! uid)).
  induction l as [|sid l IH]; intros Hown.
  - split; [done|]. by intros s ?%elem_of_nil.
  - destruct (Hown sid ltac:(left)) as (s & Hs & Hu & Hi).
    destruct IH as [IH1 IH2]; [intros sid' Hin; apply Hown; by right|].
    cbn. rewrite Hs. cbn. split; [by rewrite Hi, IH1|].
    intros s' [-> | Hin]%elem_of_cons; [by rewrite Hi|by apply IH2].
Qed.

Lemma remove_schedule_owned
    (self : ScheduleService) (schedule_id user_id : string) :
  schedules_owned self →
  schedules_owned (remove_schedule self schedule_id user_id).2.
Proof.
  intros Hown. unfold remove_schedule.
  destruct (schedules self !! schedule_id) as [schedule|] eqn:Hs; [|done].
  destruct (String.eqb_spec (Schedule.user_id schedule) user_id) as [Hu|Hu]; [|done].
  cbn. intros uid sid. cbn.
  destruct (decide (uid = user_id)) as [->|Hne].
  - rewrite lookup_insert_eq. cbn.
    rewrite list_elem_of_In, filter_In, negb_true_iff, String.eqb_neq, <- list_elem_of_In.
    intros [Hin Hsid]. destruct (Hown _ _ Hin) as (s & ? & ? & ?).
    exists s. by rewrite lookup_delete_ne.
  - rewrite lookup_insert_ne by done. intros Hin.
    destruct (Hown _ _ Hin) as (s & Hs' & Hus & Hi).
    exists s. split_and!; try done. rewrite lookup_delete_ne; [done|].
    intros ->. congruence.
Qed.

Lemma omap_filter_id (m : gmap string Schedule.t) sid0 (ids : list string) :
  (∀ sid, sid ∈ ids → ∃ s, m !! sid = Some s ∧ Schedule.id s = sid) →
  omap (fun sid => delete sid0 m !! sid)
       (List.filter (fun sid => negb (String.eqb sid sid0)) ids)
  = List.filter (fun s => negb (String.eqb (Schedule.id s) sid0))
                (omap (fun sid => m !! sid) ids).
Proof.
  induction ids as [|sid ids IH]; intros H; [done|].
  destruct (H sid ltac:(left)) as (s & Hs & Hi).
  specialize (IH (fun sid' Hin => H sid' ltac:(by right))).
  cbn. rewrite Hs. cbn. rewrite Hi.
  destruct (String.eqb_spec sid sid0) as [->|Hne]; cbn; [done|].
  rewrite lookup_delete_ne by done. rewrite Hs. cbn. by rewrite IH.
Qed.

Lemma get_user_schedules_remove
    (self : ScheduleService) (schedule_id user_id : string) (schedule : Schedule.t)
    (uid : string) :
  schedules_owned self →
  schedules self !! schedule_id = Some schedule →
  Schedule.user_id schedule = user_id →
  get_user_schedules (remove_schedule self schedule_id user_id).2 uid
  = List.filter (fun s => negb (String.eqb (Schedule.id s) schedule_id))
      (get_user_schedules self uid).
Proof.
  intros Hown Hs Hu. unfold remove_schedule. rewrite Hs, Hu, String.eqb_refl.
  unfold get_user_schedules. cbn.
  assert (∀ sid, sid ∈ default [] (user_schedules self !! uid) →
            ∃ s, schedules self !! sid = Some s ∧ Schedule.id s = sid) as Hids.
  { intros sid Hin. destruct (Hown _ _ Hin) as (s & ? & ? & ?). by exists s. }
  destruct (decide (uid = user_id)) as [->|Hne].
  - rewrite lookup_insert_eq. cbn. by apply omap_filter_id.
  - rewrite lookup_insert_ne by done.
    rewrite <- (omap_filter_id _ _ _ Hids). f_equal.
    symmetry. apply forallb_filter_id, forallb_forall. intros sid Hin%list_elem_of_In.
    apply negb_true_iff, String.eqb_neq. intros ->.
    destruct (Hown _ _ Hin) as (s & Hs' & Hus & _). congruence.
Qed.

Lemma blank_code_service_owned : schedules_owned blank_code_service.
Proof. apply add_schedule_owned; [exact schedules_owned_init|reflexivity]. Qed.

(** The bookkeeping of the schedule store holds in the empty service and is
    kept by [add_schedule] of an entry with a new id and by every call of
    [remove_schedule], whether it succeeds or raises. *)
Theorem schedule_store_bookkeeping :
  schedules_owned ScheduleService_init ∧
  (∀ self schedule,
     schedules_owned self → schedules self !! Schedule.id schedule = None →
     schedules_owned (add_schedule self schedule)) ∧
  (∀ self schedule_id user_id,
     schedules_owned self →
     schedules_owned (remove_schedule self schedule_id user_id).2).
Proof.
  split_and!.
  - exact schedules_owned_init.
  - intros self schedule. apply add_schedule_owned.
  - intros self schedule_id user_id. apply remove_schedule_owned.
Qed.

(** In a service with consistent bookkeeping, [get_user_schedules] returns
    exactly the entries whose ids are listed for the user, in that order, and
    each of them belongs to the user and is stored under its own id. *)
Theorem get_user_schedules_owned (self : ScheduleService) (uid : string) :
  schedules_owned self →
  map Schedule.id (get_user_schedules self uid) = default [] (user_schedules self !! uid) ∧
  ∀ s, s ∈ get_user_schedules self uid →
       Schedule.user_id s = uid ∧ schedules self !! Schedule.id s = Some s.
Proof. intros Hown. split; [|intros s Hs]; by apply get_user_schedules_belong. Qed.

Lemma get_user_schedules_owned_witness :
  map Schedule.id (get_user_schedules blank_code_service "dana") = ["s1"].
Proof.
  rewrite (proj1 (get_user_schedules_owned _ "dana" blank_code_service_owned)).
  reflexivity.
Defined.

(** In a service with consistent bookkeeping, adding an entry with a new id
    puts it at the end of its owner's list and leaves every other user's list
    as it was; a successful removal takes the entry out of the lists and
    leaves all other entries in place and in order. *)
Theorem get_user_schedules_after_update (self : ScheduleService) :
  schedules_owned self →
  (∀ schedule uid,
     schedules self !! Schedule.id schedule = None →
     get_user_schedules (add_schedule self schedule) uid
     = if bool_decide (uid = Schedule.user_id schedule)
       then (get_user_schedules self uid ++ [schedule])%list
       else get_user_schedules self uid) ∧
  (∀ schedule_id user_id schedule uid,
     schedules self !! schedule_id = Some schedule →
     Schedule.user_id schedule = user_id →
     get_user_schedules (remove_schedule self schedule_id user_id).2 uid
     = List.filter (fun s => negb (String.eqb (Schedule.id s) schedule_id))
         (get_user_schedules self uid)).
Proof.
  intros Hown. split.
  - intros schedule uid Hfresh. by apply get_user_schedules_add.
  - intros schedule_id user_id schedule uid Hs Hu.
    by apply (get_user_schedules_remove _ _ _ schedule).
Qed.

Lemma get_user_schedules_after_update_witness :
  get_user_schedules (remove_schedule blank_code_service "s1" "dana").2 "dana" = [] ∧
  get_user_schedules
    (add_schedule blank_code_service
       (Schedule.mk "s2" "dana" "CS 15-122" "Principles of Imperative Computation"
          MONDAY "11:00" "12:20" None)) "dana"
  = [blank_code_entry;
     Schedule.mk "s2" "dana" "CS 15-122" "Principles of Imperative Computation"
       MONDAY "11:00" "12:20" None].
Proof.
  destruct (get_user_schedules_after_update blank_code_service blank_code_service_owned)
    as [Hadd Hremove].
  split.
  - rewrite (Hremove "s1" "dana" blank_code_entry "dana"); reflexivity.
  - rewrite Hadd; reflexivity.
Defined.

(** Adding an entry with a new id and removing it again as its owner succeeds
    and gives back the users, the schedule map and every user's list of
    entries. *)
Theorem add_then_remove_schedule (self : ScheduleService) (schedule : Schedule.t) :
  schedules_owned self →
  schedules self !! Schedule.id schedule = None →
  let self' := (remove_schedule (add_schedule self schedule)
                  (Schedule.id schedule) (Schedule.user_id schedule)) in
  self'.1 = Ok tt ∧
  users self'.2 = users self ∧
  schedules self'.2 = schedules self ∧
  ∀ uid, get_user_schedules self'.2 uid = get_user_schedules self uid.
Proof.
  intros Hown Hfresh self'.
  assert (schedules (add_schedule self schedule) !! Schedule.id schedule = Some schedule)
    as Hs by (cbn; apply lookup_insert_eq).
  split_and!.
  - subst self'. unfold remove_schedule. by rewrite Hs, String.eqb_refl.
  - subst self'. unfold remove_schedule. by rewrite Hs, String.eqb_refl.
  - subst self'. unfold remove_schedule. rewrite Hs, String.eqb_refl. cbn.
    rewrite delete_insert_eq. by apply delete_id.
  - intros uid. subst self'.
    rewrite (get_user_schedules_remove _ _ _ schedule uid);
      [|by apply add_schedule_owned|done|done].
    rewrite get_user_schedules_add by done.
    assert (List.filter (fun s => negb (String.eqb (Schedule.id s) (Schedule.id schedule)))
              (get_user_schedules self uid) = get_user_schedules self uid) as Hold.
    { apply forallb_filter_id, forallb_forall. intros s Hin%list_elem_of_In.
      apply negb_true_iff, String.eqb_neq. intros E.
      destruct (proj2 (get_user_schedules_belong self uid Hown) s Hin) as [_ Hlook].
      rewrite E in Hlook. congruence. }
    case_bool_decide; [|done].
    rewrite List.filter_app, Hold. cbn. rewrite String.eqb_refl. cbn. by rewrite app_nil_r.
Qed.

Lemma add_then_remove_schedule_witness :
  (remove_schedule (add_schedule ScheduleService_init blank_code_entry) "s1" "dana").1
  = Ok tt.
Proof.
  apply (add_then_remove_schedule ScheduleService_init blank_code_entry);
    [exact schedules_owned_init|reflexivity].
Defined.

Lemma schedule_store_bookkeeping_witness :
  schedules_owned (add_schedule ScheduleService_init blank_code_entry).
Proof.
  apply (proj1 (proj2 schedule_store_bookkeeping));
    [exact (proj1 schedule_store_bookkeeping)|reflexivity].
Defined.

(** ** Formatting a clock string *)

Lemma _format_time_clock_string h m :
  (h < 24)%nat → (m < 60)%nat →
  _format_time (clock_string h m) = Ok (twelve_hour h m).
Proof.
  intros Hh Hm.
  assert (forallb (fun h => forallb (fun m =>
            match _format_time (clock_string h m) with
            | Ok r => String.eqb r (twelve_hour h m)
            | Raise _ => false
            end) (seq 0 60)) (seq 0 24) = true) as H by (vm_compute; reflexivity).
  rewrite forallb_forall in H. specialize (H h ltac:(apply in_seq; lia)).
  rewrite forallb_forall in H. specialize (H m ltac:(apply in_seq; lia)).
  destruct (_format_time (clock_string h m)); [|done].
  by apply String.eqb_eq in H as ->.
Qed.

Lemma py_int_ok_or_ValueError s :
  (∃ z, py_int s = Ok z) ∨ ∃ msg, py_int s = Raise (ValueError msg).
Proof.
  destruct (py_int s) as [z|e] eqn:E; [left; by exists z|right].
  apply py_int_raise in E as [msg ->]. by exists msg.
Qed.

Lemma _format_time_outcome time_str :
  (∀ r, _format_time time_str = Ok r →
        ∃ a b hour minute,
          time_str = a ++ ":" ++ b ∧
          str_contains ":" a = false ∧ str_contains ":" b = false ∧
          py_int a = Ok hour ∧ py_int b = Ok minute) ∧
  (∀ e, _format_time time_str = Raise e → ∃ msg, e = ValueError msg).
Proof.
  unfold _format_time.
  destruct (str_split ":" time_str) as [|a [|b [|c l]]] eqn:Hs.
  - split; [done|]. intros e [= <-]. by eexists.
  - destruct (py_int_ok_or_ValueError a) as [[z ->] | [msg ->]]; cbn;
      (split; [done|]); intros e [= <-]; by eexists.
  - apply str_split_two in Hs as (-> & Ha & Hb).
    destruct (py_int_ok_or_ValueError a) as [[hour Eh] | [msg Eh]]; rewrite Eh; cbn.
    + destruct (py_int_ok_or_ValueError b) as [[minute Em] | [msg Em]]; rewrite Em; cbn.
      * split; [|done]. intros r _. by exists a, b, hour, minute.
      * split; [done|]. intros e [= <-]. by eexists.
    + split; [done|]. intros e [= <-]. by eexists.
  - destruct (py_int_ok_or_ValueError a) as [[? ->] | [msg ->]]; cbn;
      [|split; [done|]; intros e [= <-]; by eexists].
    destruct (py_int_ok_or_ValueError b) as [[? ->] | [msg ->]]; cbn;
      [|split; [done|]; intros e [= <-]; by eexists].
    destruct (py_int_ok_or_ValueError c) as [[? ->] | [msg ->]]; cbn;
      split; try done; intros e [= <-]; by eexists.
Qed.

(** ** The next class of the day *)

Lemma min_by_key_elem_of {A} (key : A → string) x l :
  min_by_key key x l ∈ x :: l.
Proof.
  revert x. induction l as [|y l IH]; intros x; cbn; [by left|].
  destruct (String.ltb (key y) (key x)).
  - right. apply IH.
  - pose proof (IH x) as H. apply elem_of_cons in H as [E|H].
    + rewrite E. by left.
    + right. by right.
Qed.

Lemma ltb_false_le a b : String.ltb a b = false ↔ String.le b a.
Proof.
  unfold String.le, String.leb, String.ltb. rewrite (String.compare_antisym a b).
  destruct (String.compare b a); cbn; split; done.
Qed.

Lemma ltb_ge_trans a b c :
  String.ltb a b = false → String.ltb b c = false → String.ltb a c = false.
Proof.
  rewrite !ltb_false_le. intros Hba Hcb. by transitivity b.
Qed.

Lemma min_by_key_least {A} (key : A → string) x l y :
  y ∈ x :: l → String.ltb (key y) (key (min_by_key key x l)) = false.
Proof.
  revert x y. induction l as [|z l IH]; intros x y; cbn.
  - intros [->|[]%elem_of_nil]%elem_of_cons. by apply ltb_false_le.
  - assert (String.ltb (key z) (key x) = true → String.ltb (key x) (key z) = false) as Hflip.
    { unfold String.ltb. rewrite (String.compare_antisym (key x) (key z)).
      by destruct (String.compare (key z) (key x)). }
    destruct (String.ltb (key z) (key x)) eqn:Hzx.
    + intros [->|[->|Hin]%elem_of_cons]%elem_of_cons.
      * eapply ltb_ge_trans; [by apply Hflip|apply IH; by left].
      * apply IH. by left.
      * apply IH. by right.
    + intros [->|[->|Hin]%elem_of_cons]%elem_of_cons.
      * apply IH. by left.
      * eapply ltb_ge_trans; [exact Hzx|apply IH; by left].
      * apply IH. by right.
Qed.

(** Both formatters render a zero-padded clock string on the 12-hour clock:
    hour 0 and hour 12 read 12, the minute keeps its two digits, and the
    suffix is AM before noon and PM from noon on. *)
Theorem format_time_twelve_hour (h m : nat) :
  (h < 24)%nat → (m < 60)%nat →
  _format_time (clock_string h m) = Ok (twelve_hour h m) ∧
  format_time_filter (clock_string h m) = twelve_hour h m.
Proof.
  intros Hh Hm. pose proof (_format_time_clock_string h m Hh Hm) as H.
  split; [done|]. unfold format_time_filter. unfold _format_time in H.
  change (str_truthy (clock_string h m)) with true. cbn [negb]. by rewrite H.
Qed.

Lemma format_time_twelve_hour_witness :
  _format_time "00:05" = Ok "12:05 AM" ∧ format_time_filter "00:05" = "12:05 AM".
Proof. apply (format_time_twelve_hour 0 5); lia. Defined.

(** [_format_time] returns exactly when the string is two fields around one
    colon, each accepted by [int()], and raises a [ValueError] in every other
    case; the template filter [format_time] never raises: it gives the same
    text when [_format_time] returns, its argument unchanged when
    [_format_time] raises, and the empty string for the empty string.
    [int()] reads decimal digits of any script and stops at 4300 digits: a
    full-width nine before ":05" is shown as "9:05 AM", and a string whose
    hour is 4301 zeros is given back as it is. *)
Theorem format_time_outcomes (time_str : string) :
  (∀ r, _format_time time_str = Ok r →
        format_time_filter time_str = r ∧
        ∃ a b hour minute,
          time_str = a ++ ":" ++ b ∧
          str_contains ":" a = false ∧ str_contains ":" b = false ∧
          py_int a = Ok hour ∧ py_int b = Ok minute) ∧
  (∀ a b hour minute,
     time_str = a ++ ":" ++ b →
     str_contains ":" a = false → str_contains ":" b = false →
     py_int a = Ok hour → py_int b = Ok minute →
     ∃ r, _format_time time_str = Ok r) ∧
  (∀ e, _format_time time_str = Raise e →
        (∃ msg, e = ValueError msg) ∧ format_time_filter time_str = time_str) ∧
  format_time_filter "" = "" ∧
  _format_time (fullwidth_nine ++ ":05") = Ok "9:05 AM" ∧
  format_time_filter (fullwidth_nine ++ ":05") = "9:05 AM" ∧
  _format_time (zeros 4301 ++ ":05") = Raise exceeds_the_limit ∧
  format_time_filter (zeros 4301 ++ ":05") = zeros 4301 ++ ":05".
Proof.
  split_and!; [| | |reflexivity|vm_compute; reflexivity..].
  - intros r Hr. split; [|by apply (proj1 (_format_time_outcome time_str) r)].
    unfold format_time_filter. unfold _format_time in Hr.
    destruct time_str; [done|]. cbn [str_truthy negb]. by rewrite Hr.
  - intros a b hour minute -> Ha Hb Eh Em. unfold _format_time.
    change (a ++ ":" ++ b) with (a ++ String ":" b).
    rewrite (str_split_app _ _ _ Ha), (str_split_no_sep _ _ Hb), Eh, Em. cbn.
    by eexists.
  - intros e He. split; [by apply (proj2 (_format_time_outcome time_str) e)|].
    unfold format_time_filter. unfold _format_time in He.
    destruct time_str; [done|]. cbn [str_truthy negb]. by rewrite He.
Qed.

Lemma format_time_outcomes_witness :
  (∃ r, _format_time "9:5" = Ok r) ∧
  (∃ r, _format_time (fullwidth_nine ++ ":05") = Ok r).
Proof.
  split.
  - apply (proj1 (proj2 (format_time_outcomes "9:5")) "9" "5" 9%Z 5%Z); reflexivity.
  - apply (proj1 (proj2 (format_time_outcomes (fullwidth_nine ++ ":05")))
             fullwidth_nine "05" 9%Z 5%Z); vm_compute; reflexivity.
Defined.

(** ** Choosing the next class *)

Lemma future_schedules_elem_of schedules current_day current_time s :
  s ∈ List.filter (fun s => String.ltb current_time (Schedule.start_time s))
        (List.filter (fun s => bool_decide (Schedule.day s = current_day)) schedules)
  ↔ s ∈ schedules ∧ starts_later current_day current_time s.
Proof.
  unfold starts_later.
  rewrite !list_elem_of_In, !filter_In, bool_decide_eq_true, <- list_elem_of_In. tauto.
Qed.

Lemma next_class_today_chosen schedules current_day current_time :
  (next_class_today schedules current_day current_time = Ok None ∧
   ∀ s, s ∈ schedules → ¬ starts_later current_day current_time s) ∨
  (∃ s, s ∈ schedules ∧ starts_later current_day current_time s ∧
        (∀ s', s' ∈ schedules → starts_later current_day current_time s' →
               String.ltb (Schedule.start_time s') (Schedule.start_time s) = false) ∧
        next_class_today schedules current_day current_time
        = (t ← _format_time (Schedule.start_time s);
           Ok (Some (Schedule.course_code s ++ " @ " ++ t)))).
Proof.
  unfold next_class_today.
  pose proof (future_schedules_elem_of schedules current_day current_time) as Hfut.
  destruct (List.filter _ (List.filter _ schedules)) as [|s0 others] eqn:Hf.
  - left. split; [done|]. intros s Hs Hl. apply (elem_of_nil s), Hfut. done.
  - right. exists (min_by_key Schedule.start_time s0 others).
    assert (min_by_key Schedule.start_time s0 others ∈ schedules ∧
            starts_later current_day current_time
              (min_by_key Schedule.start_time s0 others)) as [Hin Hlater].
    { apply Hfut. apply min_by_key_elem_of. }
    split_and!; try done.
    intros s' Hs' Hl'. apply (min_by_key_least Schedule.start_time). apply Hfut. done.
Qed.

(** [next_class_today], the selection of lines 104-108 and 205-209: there is
    no next class exactly when no entry of the day starts after the current
    time; a label returned is the course code and the formatted start of an
    entry of the day that starts after the current time and before which no
    other such entry starts; and the selection raises only what
    [_format_time] raises on the start of such an entry. *)
Theorem next_class_is_the_earliest_later_start
    (schedules : list Schedule.t) (current_day : DayType) (current_time : string) :
  (next_class_today schedules current_day current_time = Ok None ↔
     ∀ s, s ∈ schedules → ¬ starts_later current_day current_time s) ∧
  (∀ label, next_class_today schedules current_day current_time = Ok (Some label) →
     ∃ s t, s ∈ schedules ∧ starts_later current_day current_time s ∧
            (∀ s', s' ∈ schedules → starts_later current_day current_time s' →
                   String.ltb (Schedule.start_time s') (Schedule.start_time s) = false) ∧
            _format_time (Schedule.start_time s) = Ok t ∧
            label = Schedule.course_code s ++ " @ " ++ t) ∧
  (∀ e, next_class_today schedules current_day current_time = Raise e →
     ∃ s, s ∈ schedules ∧ starts_later current_day current_time s ∧
          _format_time (Schedule.start_time s) = Raise e).
Proof.
  destruct (next_class_today_chosen schedules current_day current_time)
    as [[-> Hnone] | (s & Hs & Hlater & Hleast & ->)].
  - split_and!; done.
  - destruct (_format_time (Schedule.start_time s)) as [t|e] eqn:Ht; cbn.
    + split_and!; [|intros label [= <-]; by exists s, t|done].
      split; [done|]. intros Hnone. exfalso. by apply (Hnone s).
    + split_and!; [|done|intros e' [= <-]; by exists s].
      split; [done|]. intros Hnone. exfalso. by apply (Hnone s).
Qed.


(** ** The status board, continued *)

Lemma get_current_status_run self schedule_service now r :
  get_current_status self schedule_service now = Ok r →
  CurrentStatusResponse.now r = dt_isoformat now ∧
  ∃ entries,
    Forall2 (board_entry_of self schedule_service (day_of now) (strftime_HM now))
      entries (users schedule_service) ∧
    CurrentStatusResponse.in_class r
    = List.filter (fun e => opt_str_truthy (StatusBoardUser.current_class e)) entries ∧
    CurrentStatusResponse.free r
    = List.filter (fun e => negb (opt_str_truthy (StatusBoardUser.current_class e))) entries.
Proof.
  unfold get_current_status. rewrite DayType_of_value_now. cbn [mbind result_bind].
  destruct (status_loop _ _ _ _ _ _ _) as [[in_class free]|e] eqn:Hloop; [|done].
  cbn. intros [= <-]. cbn. split; [done|].
  apply status_loop_spec in Hloop as (entries & Hall & -> & ->). by exists entries.
Qed.

Lemma filter_partition_Permutation {A} (P : A → bool) (l : list A) :
  Permutation (List.filter P l ++ List.filter (fun x => negb (P x)) l) l.
Proof.
  induction l as [|x l IH]; [done|]. cbn. destruct (P x); cbn.
  - by constructor.
  - rewrite <- Permutation_middle. by constructor.
Qed.

(** Whenever the status board is returned it carries the ISO rendering of the
    instant, and its two lists split one list of board entries, one entry per
    user of the store in the iteration order of the store: [in_class] keeps,
    in that order, the entries whose current class is a non-empty string, and
    [free] keeps the others.  So every user is on the board exactly once. *)
Theorem status_board_splits_the_users
    (self : StatusService) (schedule_service : ScheduleService) (now : datetime)
    (r : CurrentStatusResponse.t) :
  get_current_status self schedule_service now = Ok r →
  CurrentStatusResponse.now r = dt_isoformat now ∧
  ∃ entries,
    Forall2 (board_entry_of self schedule_service (day_of now) (strftime_HM now))
      entries (users schedule_service) ∧
    CurrentStatusResponse.in_class r
    = List.filter (fun e => opt_str_truthy (StatusBoardUser.current_class e)) entries ∧
    CurrentStatusResponse.free r
    = List.filter (fun e => negb (opt_str_truthy (StatusBoardUser.current_class e))) entries ∧
    Permutation (CurrentStatusResponse.in_class r ++ CurrentStatusResponse.free r) entries ∧
    (length (CurrentStatusResponse.in_class r) + length (CurrentStatusResponse.free r)
     = length (users schedule_service))%nat.
Proof.
  intros Hrun. destruct (get_current_status_run _ _ _ _ Hrun) as (Hnow & entries & Hall & Hic & Hfr).
  split; [done|]. exists entries. split_and!; try done.
  - rewrite Hic, Hfr. apply filter_partition_Permutation.
  - rewrite <- (Forall2_length _ _ _ Hall), <- length_app, Hic, Hfr.
    apply Permutation_length, filter_partition_Permutation.
Qed.

Lemma example_status_board :
  get_current_status example_status_service example_schedule_service monday_0930
  = Ok (CurrentStatusResponse.mk "2025-01-13T09:30:00"
          [ StatusBoardUser.mk "alice" "Alice Chen" "CS" None "free" (Some "CS 15-122") None;
            StatusBoardUser.mk "bob" "Bob Smith" "CS" None "free" (Some "CS 15-122") None ]
          [ StatusBoardUser.mk "carol" "Carol Johnson" "MATH" None "social" None None ]).
Proof. vm_compute. reflexivity. Qed.

Lemma status_board_splits_the_users_witness :
  ∃ r, get_current_status example_status_service example_schedule_service monday_0930 = Ok r ∧
       (length (CurrentStatusResponse.in_class r) + length (CurrentStatusResponse.free r)
        = length (users example_schedule_service))%nat.
Proof.
  eexists. split; [exact example_status_board|].
  destruct (status_board_splits_the_users _ _ _ _ example_status_board)
    as (_ & entries & _ & _ & _ & _ & Hlen).
  exact Hlen.
Defined.

(** When no stored entry of a user has an empty course code, the user's
    board entry is listed under [in_class] exactly when one of the user's
    entries is on the reference day and holds the reference time between its
    start and its end (compared as strings), and under [free] exactly when
    none does. *)
Theorem in_class_iff_an_entry_holds_the_time
    (self : StatusService) (schedule_service : ScheduleService) (now : datetime)
    (r : CurrentStatusResponse.t) (e : StatusBoardUser.t) (item : string * User.t) :
  get_current_status self schedule_service now = Ok r →
  board_entry_of self schedule_service (day_of now) (strftime_HM now) e item →
  e ∈ CurrentStatusResponse.in_class r ∨ e ∈ CurrentStatusResponse.free r →
  (∀ s, s ∈ get_user_schedules schedule_service item.1 → Schedule.course_code s ≠ "") →
  (e ∈ CurrentStatusResponse.in_class r ↔
     ∃ s, s ∈ get_user_schedules schedule_service item.1 ∧
          holds_time (day_of now) (strftime_HM now) s) ∧
  (e ∈ CurrentStatusResponse.free r ↔
     ¬ ∃ s, s ∈ get_user_schedules schedule_service item.1 ∧
            holds_time (day_of now) (strftime_HM now) s).
Proof.
  intros Hrun (_ & _ & _ & _ & _ & He) Hon Hcodes.
  destruct (get_current_status_run _ _ _ _ Hrun) as (_ & entries & _ & Hic & Hfr).
  rewrite Hic, Hfr in *.
  rewrite !list_elem_of_In, !filter_In, negb_true_iff in *.
  rewrite <- (current_class_scan_truthy _ _ _ Hcodes), <- He.
  destruct (opt_str_truthy (StatusBoardUser.current_class e)); split; split;
    try tauto; try (intros [? ?]; congruence); try (intros ?; exfalso; tauto);
    intros _; destruct Hon as [[? ?]|[? ?]]; try done; try (split; done).
Qed.

Lemma in_class_iff_an_entry_holds_the_time_witness :
  ∃ s, s ∈ get_user_schedules example_schedule_service "alice" ∧
       holds_time (day_of monday_0930) (strftime_HM monday_0930) s.
Proof.
  eapply (proj1 (proj1 (in_class_iff_an_entry_holds_the_time
            example_status_service example_schedule_service monday_0930 _
            (StatusBoardUser.mk "alice" "Alice Chen" "CS" None "free" (Some "CS 15-122") None)
            ("alice", User.mk "alice" "Alice Chen" "CS" None)
            example_status_board _ _ _))).
  Unshelve.
  - cbn. left.
  - repeat split; vm_compute; reflexivity.
  - left. cbn. left.
  - intros s Hs. vm_compute in Hs.
    repeat (apply elem_of_cons in Hs as [-> | Hs]; [discriminate|]).
    by apply elem_of_nil in Hs.
Defined.





(** A user with no entry on the reference day has no current class and no
    next class, whatever the time and whatever the entries of other days
    hold. *)
Theorem day_without_entries
    (schedules : list Schedule.t) (current_day : DayType) (current_time : string) :
  (∀ s, s ∈ schedules → Schedule.day s ≠ current_day) →
  current_class_scan schedules current_day current_time = None ∧
  next_class_today schedules current_day current_time = Ok None.
Proof.
  intros Hday. split.
  - induction schedules as [|s rest IH]; [done|]. cbn.
    rewrite bool_decide_eq_false_2 by (apply Hday; by left).
    apply IH. intros s' Hs'. apply Hday. by right.
  - destruct (next_class_today_chosen schedules current_day current_time)
      as [[-> _] | (s & Hs & [Hd _] & _)]; [done|].
    by destruct (Hday s Hs).
Qed.

Lemma day_without_entries_witness :
  current_class_scan [blank_code_entry] TUESDAY "09:30" = None ∧
  next_class_today [blank_code_entry] TUESDAY "09:30" = Ok None.
Proof.
  apply day_without_entries. intros s ->%list_elem_of_singleton. discriminate.
Defined.

(** ** The recommendations, continued *)




Lemma recommend_loop_nothing_shared schedule_service status_service clock user_id user
    user_courses items tick recommendations :
  (∀ item, item ∈ items → item.1 ≠ user_id →
           shared_with schedule_service user_courses item.1 = ∅) →
  recommend_loop schedule_service status_service clock user_id user user_courses
    items tick recommendations = Ok recommendations.
Proof.
  revert tick recommendations.
  induction items as [|[other_user_id other_user] rest IH]; intros tick recs Hnone; [done|].
  cbn [recommend_loop].
  assert (∀ item, item ∈ rest → item.1 ≠ user_id →
            shared_with schedule_service user_courses item.1 = ∅) as Hrest
    by (intros item Hin; apply Hnone; by right).
  destruct (String.eqb_spec other_user_id user_id) as [E|E]; [by apply IH|].
  fold (shared_with schedule_service user_courses other_user_id).
  pose proof (Hnone (other_user_id, other_user) ltac:(left) E) as Hempty.
  cbn [fst] in Hempty. rewrite Hempty, elements_empty.
  by apply IH.
Qed.

(** A requester who shares no course code with any other user of the store,
    in particular one without schedule entries, gets the empty list; the
    call does not read the clock and cannot raise. *)
Theorem nothing_shared_nothing_recommended
    (schedule_service : ScheduleService) (status_service : StatusService)
    (clock : nat → datetime) (user_id : string) :
  (get_user_schedules schedule_service user_id = [] ∨
   ∀ other_user_id other_user,
     (other_user_id, other_user) ∈ users schedule_service → other_user_id ≠ user_id →
     course_set (get_user_schedules schedule_service user_id)
     ∩ course_set (get_user_schedules schedule_service other_user_id) = ∅) →
  get_recommendations schedule_service status_service clock user_id = Ok [].
Proof.
  intros Hnone. unfold get_recommendations.
  destruct (get_user schedule_service user_id) as [user|]; [|done].
  rewrite recommend_loop_nothing_shared; [done|].
  intros [oid ou] Hin Hne. unfold shared_with. cbn [fst] in *.
  destruct Hnone as [-> | Hnone]; [|by apply (Hnone oid ou)].
  unfold course_set at 1. cbn [map list_to_set]. apply intersection_empty_l_L.
Qed.

Lemma nothing_shared_nothing_recommended_witness :
  (length (users crowded_schedule_service) = 5%nat ∧
   is_Some (get_user crowded_schedule_service "erin") ∧
   get_user_schedules crowded_schedule_service "erin" = [] ∧
   get_recommendations crowded_schedule_service example_status_service
     (fun _ => monday_0930) "erin" = Ok []) ∧
  (is_Some (get_user crowded_schedule_service "frank") ∧
   length (get_user_schedules crowded_schedule_service "frank") = 1%nat ∧
   get_recommendations crowded_schedule_service example_status_service
     (fun _ => monday_0930) "frank" = Ok []).
Proof.
  split.
  - split; [vm_compute; reflexivity|].
    split; [vm_compute; by eexists|].
    split; [vm_compute; reflexivity|].
    refine (nothing_shared_nothing_recommended crowded_schedule_service
              example_status_service (fun _ => monday_0930) "erin" _).
    left. vm_compute. reflexivity.
  - split; [vm_compute; by eexists|].
    split; [vm_compute; reflexivity|].
    refine (nothing_shared_nothing_recommended crowded_schedule_service
              example_status_service (fun _ => monday_0930) "frank" _).
    right. intros oid ou Hin Hne.
    assert (oid ∈ ["alice"; "bob"; "carol"; "erin"]) as Hoid.
    { apply (list_elem_of_fmap_2 fst) in Hin. cbn [fst] in Hin.
      assert (fst <$> users crowded_schedule_service
              = ["alice"; "bob"; "carol"; "erin"; "frank"]) as E
        by (vm_compute; reflexivity).
      rewrite E in Hin. clear E.
      repeat (apply elem_of_cons in Hin as [-> | Hin]);
        [by left|by right; left|by right; right; left
        |by right; right; right; left|done|by apply elem_of_nil in Hin]. }
    clear Hin Hne.
    repeat (apply elem_of_cons in Hoid as [-> | Hoid]);
      [..|by apply elem_of_nil in Hoid]; vm_compute; reflexivity.
Defined.

Lemma recommend_loop_current_first schedule_service status_service clock user_id user
    user_courses items tick recommendations out :
  recommend_loop schedule_service status_service clock user_id user user_courses
    items tick recommendations = Ok out →
  Forall (fun p => opt_str_truthy (StudyPartner.current_class p) = true →
                   StudyPartner.next_class p = None) recommendations →
  Forall (fun p => opt_str_truthy (StudyPartner.current_class p) = true →
                   StudyPartner.next_class p = None) out.
Proof.
  revert tick recommendations.
  induction items as [|[other_user_id other_user] rest IH]; intros tick recs.
  - by intros [= <-].
  - cbn [recommend_loop].
    destruct (String.eqb other_user_id user_id); [apply IH|].
    destruct (elements _) as [|c cs]; [apply IH|].
    rewrite DayType_of_value_now. cbn [mbind result_bind].
    destruct (opt_str_truthy (current_class_scan _ _ _)) eqn:Hc; cbn [negb mbind result_bind].
    + intros H Hrecs. apply (IH _ _ H). apply Forall_app. split; [done|].
      constructor; [done|constructor].
    + destruct (next_class_today _ _ _) as [next_class|e]; [|done].
      cbn [mbind result_bind]. intros H Hrecs. apply (IH _ _ H).
      apply Forall_app. split; [done|]. constructor; [|constructor].
      cbn. rewrite Hc. done.
Qed.

(** In every returned recommendation the current class takes priority: a
    record that shows a current class shows no next class.  Every score is at
    least 20 and at most 20 times the number of the requester's course codes
    plus 25. *)
Theorem recommendation_records_are_bounded
    (schedule_service : ScheduleService) (status_service : StatusService)
    (clock : nat → datetime) (user_id : string) (l : list StudyPartner.t) :
  get_recommendations schedule_service status_service clock user_id = Ok l →
  ∀ p, p ∈ l →
    (opt_str_truthy (StudyPartner.current_class p) = true →
     StudyPartner.next_class p = None) ∧
    (20 ≤ StudyPartner.score p
     ≤ 20 * Z.of_nat (size (course_set (get_user_schedules schedule_service user_id))) + 25)%Z.
Proof.
  intros Hrun p Hp. split.
  - assert (Forall (fun p => opt_str_truthy (StudyPartner.current_class p) = true →
                             StudyPartner.next_class p = None) l) as Hall;
      [|rewrite Forall_forall in Hall; by apply Hall].
    clear p Hp. unfold get_recommendations in Hrun.
    destruct (get_user schedule_service user_id) as [user|];
      [|injection Hrun as <-; constructor].
    destruct (recommend_loop _ _ _ _ _ _ _ _ _) as [recs|e] eqn:Hloop; [|done].
    cbn in Hrun. injection Hrun as <-.
    apply recommend_loop_current_first in Hloop; [|constructor].
    rewrite Forall_forall in Hloop. apply Forall_forall. intros p Hp. apply Hloop.
    apply list_elem_of_lookup in Hp as [i Hi]. apply lookup_take_Some in Hi as [Hi _].
    apply list_elem_of_lookup_2 in Hi. by rewrite sort_reverse_Permutation in Hi.
  - destruct (partner_in_run _ _ _ _ _ _ Hrun Hp)
      as (user & [oid ou] & Huser & Hin & [Hne Hsh]%is_candidate_true & Hpi).
    destruct Hpi as (_ & _ & _ & _ & _ & Hscore & _). cbn [fst snd] in *.
    rewrite Hscore, score_of_formula.
    pose proof (shared_size_pos _ Hsh) as Hpos.
    assert (size (shared_with schedule_service
                    (course_set (get_user_schedules schedule_service user_id)) oid)
            ≤ size (course_set (get_user_schedules schedule_service user_id)))%nat as Hle.
    { apply subseteq_size. unfold shared_with. apply intersection_subseteq_l. }
    repeat case_bool_decide; lia.
Qed.

Lemma recommendation_records_are_bounded_witness :
  (20 ≤ StudyPartner.score
          (StudyPartner.mk "bob" "Bob Smith" "CS" None 65 ["CS 15-122"; "MATH 21-127"]
             (Some "CS 15-122") None "Shares 2 classes with you; Same major (CS)"))%Z.
Proof.
  pose proof (recommendation_records_are_bounded _ _ _ _ _ example_recommendations
                (StudyPartner.mk "bob" "Bob Smith" "CS" None 65 ["CS 15-122"; "MATH 21-127"]
                   (Some "CS 15-122") None "Shares 2 classes with you; Same major (CS)"))
    as H.
  destruct H as [_ [H _]]; [left|exact H].
Defined.







(** ** Enumerations, statuses and clock strings *)

(** [DayType(value)] inverts [.value]: every member is found again from its
    value, a string is accepted only if it is the value of the member
    returned, and every other string raises a [ValueError]. *)
Theorem DayType_value_round_trip :
  (∀ d, DayType_of_value (DayType_value d) = Ok d) ∧
  (∀ s d, DayType_of_value s = Ok d → s = DayType_value d) ∧
  (∀ s e, DayType_of_value s = Raise e → ∃ msg, e = ValueError msg) ∧
  (∀ now, DayType_of_value (strftime_A_lower now) = Ok (day_of now)).
Proof.
  split_and!.
  - by intros [].
  - intros s d. unfold DayType_of_value.
    destruct (find _ _) as [d'|] eqn:Hfind; [|done].
    apply find_some in Hfind as [_ <-%String.eqb_eq]. by intros [= <-].
  - intros s e. unfold DayType_of_value.
    destruct (find _ _); [done|]. intros [= <-]. by eexists.
  - apply DayType_of_value_now.
Qed.

(** The status store answers with the last status written for a user, leaves
    the status of every other user as it was, and answers free for a user
    that was never written. *)
Theorem get_user_status_after_update
    (self : StatusService) (user_id : string) (status : StatusType)
    (uuid : string) (now : datetime) :
  (∀ uid, get_user_status (update_user_status self user_id status uuid now) uid
          = if bool_decide (uid = user_id) then status else get_user_status self uid) ∧
  (∀ status' uuid' now',
     update_user_status (update_user_status self user_id status uuid now)
       user_id status' uuid' now'
     = update_user_status self user_id status' uuid' now') ∧
  (∀ uid, get_user_status {| user_statuses := ∅ |} uid = FREE).
Proof.
  split_and!.
  - intros uid. unfold get_user_status, update_user_status. cbn.
    case_bool_decide as E; [subst; by rewrite lookup_insert_eq|].
    by rewrite lookup_insert_ne.
  - intros status' uuid' now'. unfold update_user_status. cbn.
    by rewrite insert_insert_eq.
  - intros uid. unfold get_user_status. cbn. by rewrite lookup_empty.
Qed.

Lemma clock_string_inj h m h' m' :
  (h < 24)%nat → (m < 60)%nat → (h' < 24)%nat → (m' < 60)%nat →
  clock_string h m = clock_string h' m' → h = h' ∧ m = m'.
Proof.
  intros Hh Hm Hh' Hm' E.
  assert (Z.of_nat (60 * h + m) = Z.of_nat (60 * h' + m')) as Hz.
  { rewrite <- !minutes_of_clock_string by done. by rewrite E. }
  lia.
Qed.

(** The clock strings the program writes are read back exactly:
    [time_to_minutes] returns the minute of the day of the instant that
    [strftime('%H:%M')] rendered, two such strings are equal only for the same
    hour and minute, and they are ordered as strings exactly as their minutes
    are ordered as numbers. *)
Theorem clock_strings_read_back (now now' : datetime) :
  time_to_minutes (strftime_HM now) = Ok (minute_of_day now) ∧
  (0 ≤ minute_of_day now ≤ 1439)%Z ∧
  (strftime_HM now = strftime_HM now' →
     dt_hour now = dt_hour now' ∧ dt_minute now = dt_minute now') ∧
  String.leb (strftime_HM now) (strftime_HM now')
  = (minute_of_day now <=? minute_of_day now')%Z.
Proof.
  pose proof (proj1 (Nat.ltb_lt _ _) (dt_hour_ok now)).
  pose proof (proj1 (Nat.ltb_lt _ _) (dt_minute_ok now)).
  pose proof (proj1 (Nat.ltb_lt _ _) (dt_hour_ok now')).
  pose proof (proj1 (Nat.ltb_lt _ _) (dt_minute_ok now')).
  split; [|split; [|split]].
  - rewrite time_to_minutes_total. f_equal. apply minutes_of_now.
  - unfold minute_of_day. lia.
  - change (strftime_HM now) with (clock_string (dt_hour now) (dt_minute now)).
    change (strftime_HM now') with (clock_string (dt_hour now') (dt_minute now')).
    intros E. exact (clock_string_inj _ _ _ _ H H0 H1 H2 E).
  - change (strftime_HM now) with (clock_string (dt_hour now) (dt_minute now)).
    change (strftime_HM now') with (clock_string (dt_hour now') (dt_minute now')).
    unfold minute_of_day. exact (leb_clock_string _ _ _ _ H H0 H1 H2).
Qed.

(** ** Shared classes in the engine *)

Lemma get_user_classes_unknown self user_id :
  algorithm.schedules self !! user_id = None → get_user_classes self user_id = [].
Proof. intros H. unfold get_user_classes. by rewrite H. Qed.

Lemma list_of_set_spec (s : gset string) (l : list string) :
  list_of_set s l ↔ NoDup l ∧ ∀ c, c ∈ l ↔ c ∈ s.
Proof.
  unfold list_of_set. split.
  - intros H. split; [rewrite H; apply NoDup_elements|].
    intros c. by rewrite H, elem_of_elements.
  - intros [Hnd Hin]. apply NoDup_Permutation; [done|apply NoDup_elements|].
    intros c. by rewrite Hin, elem_of_elements.
Qed.

(** The lists [get_shared_classes] may return for two users are exactly the
    lists that hold every course code found in the class lists of both users
    once, and nothing else; there is such a list.  What the call returns
    for the same two users in the other order is a permutation of it, and
    need not be the same list.  The only list returned is the empty one when
    either user has no schedule document.  For alice and bob of the sample
    engine both orders of their two shared courses are possible answers. *)
Theorem get_shared_classes_is_the_intersection
    (self : RecommendationEngine) (user1_id user2_id : string) :
  (∃ shared, get_shared_classes self user1_id user2_id shared) ∧
  (∀ shared,
     get_shared_classes self user1_id user2_id shared ↔
     NoDup shared ∧
     ∀ c, c ∈ shared ↔
          c ∈ get_user_classes self user1_id ∧ c ∈ get_user_classes self user2_id) ∧
  (∀ shared shared',
     get_shared_classes self user1_id user2_id shared →
     get_shared_classes self user2_id user1_id shared' →
     shared ≡ₚ shared') ∧
  (algorithm.schedules self !! user1_id = None ∨ algorithm.schedules self !! user2_id = None →
     ∀ shared, get_shared_classes self user1_id user2_id shared → shared = []) ∧
  (get_shared_classes example_engine "alice" "bob" ["CS 15-122"; "MATH 21-127"] ∧
   get_shared_classes example_engine "alice" "bob" ["MATH 21-127"; "CS 15-122"]).
Proof.
  unfold get_shared_classes. split_and!.
  - eexists. unfold list_of_set. reflexivity.
  - intros shared. rewrite list_of_set_spec.
    by setoid_rewrite elem_of_intersection; setoid_rewrite elem_of_list_to_set.
  - unfold list_of_set. intros shared shared' -> ->.
    by rewrite (comm_L (∩)).
  - unfold list_of_set.
    intros [H|H] shared; rewrite (get_user_classes_unknown _ _ H); cbn [list_to_set].
    + rewrite intersection_empty_l_L, elements_empty. apply Permutation_nil_r.
    + rewrite intersection_empty_r_L, elements_empty. apply Permutation_nil_r.
  - unfold list_of_set. apply (bool_decide_unpack _). vm_compute. reflexivity.
  - unfold list_of_set. apply (bool_decide_unpack _). vm_compute. reflexivity.
Qed.

Lemma get_shared_classes_is_the_intersection_witness :
  get_user_classes example_engine "alice" = ["CS 15-122"; "MATH 21-127"] ∧
  get_user_classes example_engine "bob" = ["CS 15-122"; "MATH 21-127"] ∧
  get_shared_classes example_engine "alice" "bob" ["MATH 21-127"; "CS 15-122"] ∧
  get_shared_classes example_engine "bob" "alice" ["CS 15-122"; "MATH 21-127"] ∧
  ¬ get_shared_classes example_engine "alice" "bob" ["CS 15-122"] ∧
  ¬ get_shared_classes example_engine "alice" "bob"
      ["CS 15-122"; "MATH 21-127"; "CS 15-122"].
Proof.
  assert (get_user_classes example_engine "alice" = ["CS 15-122"; "MATH 21-127"])
    as Ea by (vm_compute; reflexivity).
  assert (get_user_classes example_engine "bob" = ["CS 15-122"; "MATH 21-127"])
    as Eb by (vm_compute; reflexivity).
  pose proof (proj1 (proj2 (get_shared_classes_is_the_intersection
                              example_engine "alice" "bob"))) as Hab.
  pose proof (proj1 (proj2 (get_shared_classes_is_the_intersection
                              example_engine "bob" "alice"))) as Hba.
  rewrite Ea, Eb in Hab, Hba.
  split_and!; [exact Ea|exact Eb|..].
  - apply Hab. split; [apply (bool_decide_unpack _); vm_compute; reflexivity|].
    intros c. rewrite !elem_of_cons, !elem_of_nil. tauto.
  - apply Hba. split; [apply (bool_decide_unpack _); vm_compute; reflexivity|].
    intros c. rewrite !elem_of_cons, !elem_of_nil. tauto.
  - intros [_ H]%Hab.
    assert ("MATH 21-127" ∈ ["CS 15-122"]) as Hm
      by (apply H; split; right; left).
    apply list_elem_of_singleton in Hm. discriminate.
  - intros [H _]%Hab. apply NoDup_cons in H as [H _].
    apply H. right. left.
Defined.

(** ** The engine's current and next class *)










